(** * Campus grievance store: row-level security, triggers and constraints

    A shallow embedding of the database layer defined by the two migrations
    under [supabase/migrations]: the five relations, the row-level security
    policies, the trigger functions and the declarative constraints (primary
    keys, unique keys, foreign keys, CHECK).  Every client statement is a
    function from a database state to either a new state or an SQL error; a
    statement that raises leaves the state as it was, which is how one
    statement (with the triggers it fires) is one atomic unit of work.

    The model describes the schema after both migrations have run.  Callers
    are authenticated principals, so [auth.uid()] is the caller's identifier.
    Rows of [profiles] are read through their key only by the statements on
    the other relations; [profiles] itself, sign-up and the application's
    pages are modelled further down. *)

From Stdlib Require Import List String Bool Arith NArith ZArith Lia Sorted Permutation.
Import ListNotations.

Local Open Scope string_scope.
Local Open Scope list_scope.
Local Open Scope N_scope.

(** ** Column types *)

(** [uuid] values are 128-bit numbers; only equality is ever used on them. *)
Definition uuid := N.
(** [timestamptz]: microseconds since the epoch. *)
Definition timestamptz := Z.

(** [CREATE TYPE public.app_role AS ENUM ('student', 'staff', 'admin')] *)
Inductive app_role := student | staff | admin.

Inductive complaint_category := hostel | academic | food | infrastructure | other.

Inductive complaint_severity := low | medium | high.

Inductive complaint_status := submitted | in_progress | resolved.

Definition app_role_eqb (a b : app_role) : bool :=
  match a, b with
  | student, student | staff, staff | admin, admin => true
  | _, _ => false
  end.

Definition complaint_status_eqb (a b : complaint_status) : bool :=
  match a, b with
  | submitted, submitted | in_progress, in_progress | resolved, resolved => true
  | _, _ => false
  end.

(** SQL's [x = y] where [x] is a nullable column: a NULL operand makes the
    comparison NULL, which a policy or a WHERE clause treats as not true. *)
Definition null_eqb (x : option uuid) (y : uuid) : bool :=
  match x with
  | Some v => v =? y
  | None => false
  end.

(** [x IS NULL] *)
Definition is_null {A} (x : option A) : bool :=
  match x with
  | None => true
  | Some _ => false
  end.

(** ** Rows *)

Module Profile.
Record t := mk { id : uuid; name : string; email : string }.
End Profile.

Module UserRole.
(** [public.user_roles], with [UNIQUE (user_id, role)]. *)
Record t := mk { id : uuid; user_id : uuid; role : app_role }.
End UserRole.

Module Complaint.
Record t := mk {
  id : uuid;
  student_id : uuid;
  category : complaint_category;
  severity : complaint_severity;
  title : string;
  description : string;
  is_anonymous : bool;
  status : complaint_status;
  staff_assigned : option uuid;
  rating : option Z;
  created_at : timestamptz;
  resolved_at : option timestamptz;
  withdrawn_at : option timestamptz;
  withdrawal_reason : option string
}.
End Complaint.

Module TimelineEntry.
(** [public.complaint_timeline] *)
Record t := mk {
  id : uuid;
  complaint_id : uuid;
  updated_by : option uuid;
  message : string;
  created_at : timestamptz
}.
End TimelineEntry.

Module IdentityLocker.
(** [public.identity_lockers]; [reveal_status] is a [text] column. *)
Record t := mk {
  complaint_id : uuid;
  real_student_id : uuid;
  reveal_status : string;
  reveal_reason : option string;
  reveal_requested_by : option uuid;
  revealed_at : option timestamptz
}.
End IdentityLocker.

(** ** The database *)

Record database := mkdb {
  profiles : list Profile.t;
  user_roles : list UserRole.t;
  complaints : list Complaint.t;
  complaint_timeline : list TimelineEntry.t;
  identity_lockers : list IdentityLocker.t
}.

(** ** Errors and results of a statement *)

Inductive sql_error :=
| raise_exception (msg : string)   (* RAISE EXCEPTION in a trigger function *)
| rls_violation                    (* new row violates row-level security policy *)
| unique_violation                 (* duplicate key value *)
| foreign_key_violation
| check_violation.

Inductive result (A : Type) :=
| Ok (a : A)
| Error (e : sql_error).

Arguments Ok {A} a.
Arguments Error {A} e.

Definition bind {A B} (m : result A) (k : A -> result B) : result B :=
  match m with
  | Ok a => k a
  | Error e => Error e
  end.

Notation "x <- m ;; k" := (bind m (fun x => k))
  (at level 61, m at next level, right associativity).

(** [require b e]: go on when [b] holds, raise [e] otherwise. *)
Definition require (b : bool) (e : sql_error) : result unit :=
  if b then Ok tt else Error e.

Notation "m ;; k" := (bind m (fun _ => k))
  (at level 61, right associativity).

(** ** Key lookups used by the constraints *)

Definition profile_exists (db : database) (u : uuid) : bool :=
  existsb (fun p => Profile.id p =? u) (profiles db).

(** A nullable foreign key to [profiles(id)]. *)
Definition profile_ref_ok (db : database) (x : option uuid) : bool :=
  match x with
  | None => true
  | Some u => profile_exists db u
  end.

Definition complaint_exists (db : database) (c : uuid) : bool :=
  existsb (fun r => Complaint.id r =? c) (complaints db).

Definition locker_exists (db : database) (c : uuid) : bool :=
  existsb (fun l => IdentityLocker.complaint_id l =? c) (identity_lockers db).

Definition timeline_id_exists (db : database) (i : uuid) : bool :=
  existsb (fun e => TimelineEntry.id e =? i) (complaint_timeline db).

(** [rating INTEGER CHECK (rating >= 1 AND rating <= 5)]; a CHECK passes on
    NULL. *)
Definition rating_check (c : Complaint.t) : bool :=
  match Complaint.rating c with
  | None => true
  | Some r => ((1 <=? r) && (r <=? 5))%Z
  end.

(** ** Role registry *)

(** [public.has_role(_user_id, _role)]: SECURITY DEFINER, so it reads
    [user_roles] without the caller's row filters. *)
Definition has_role (db : database) (_user_id : uuid) (_role : app_role) : bool :=
  existsb (fun r => (UserRole.user_id r =? _user_id) && app_role_eqb (UserRole.role r) _role)
          (user_roles db).

(** ** Row-level security policies

    Each policy is a predicate of the caller ([auth.uid()]) and a row.  The
    policies of one table and one command are permissive: a row passes when
    one of them passes. *)

Section Policies.
Variable db : database.
Variable uid : uuid.

(** "Students can view their own complaints", and the USING clause of
    "Students can update their own complaints" and the WITH CHECK of
    "Students can create complaints". *)
Definition own_complaint (c : Complaint.t) : bool :=
  uid =? Complaint.student_id c.

(** "Staff can view assigned complaints" / "Staff can update assigned
    complaints". *)
Definition staff_assigned_complaint (c : Complaint.t) : bool :=
  has_role db uid staff && null_eqb (Complaint.staff_assigned c) uid.

(** "Admin can view all complaints" / "Admin can update all complaints". *)
Definition admin_any_complaint (c : Complaint.t) : bool :=
  has_role db uid admin.

Definition complaints_select_policy (c : Complaint.t) : bool :=
  own_complaint c || staff_assigned_complaint c || admin_any_complaint c.

Definition complaints_insert_check (c : Complaint.t) : bool :=
  own_complaint c.

(** USING of the three UPDATE policies. *)
Definition complaints_update_using (c : Complaint.t) : bool :=
  own_complaint c || staff_assigned_complaint c || admin_any_complaint c.

(** WITH CHECK of the three UPDATE policies, applied to the new row; the
    students' policy has no WITH CHECK, so its USING clause stands in. *)
Definition complaints_update_check (c : Complaint.t) : bool :=
  own_complaint c || staff_assigned_complaint c || admin_any_complaint c.

(** [SELECT ... FROM public.complaints] as the caller sees it. *)
Definition select_complaints : list Complaint.t :=
  filter complaints_select_policy (complaints db).

(** "Users can view timeline for their complaints": the subquery on
    [complaints] runs under the caller's own row filters. *)
Definition own_complaint_timeline (e : TimelineEntry.t) : bool :=
  existsb (fun c => Complaint.id c =? TimelineEntry.complaint_id e)
          (filter (fun c => Complaint.student_id c =? uid) select_complaints).

(** "Staff can view timeline for assigned complaints". *)
Definition staff_assigned_timeline (e : TimelineEntry.t) : bool :=
  has_role db uid staff
  && existsb (fun c => Complaint.id c =? TimelineEntry.complaint_id e)
             (filter (fun c => null_eqb (Complaint.staff_assigned c) uid) select_complaints).

(** "Admin can view all complaint timelines". *)
Definition admin_any_timeline (e : TimelineEntry.t) : bool :=
  has_role db uid admin.

Definition timeline_select_policy (e : TimelineEntry.t) : bool :=
  own_complaint_timeline e || staff_assigned_timeline e || admin_any_timeline e.

Definition select_timeline : list TimelineEntry.t :=
  filter timeline_select_policy (complaint_timeline db).

(** "Admin can manage identity lockers": FOR ALL, USING and WITH CHECK. *)
Definition identity_lockers_policy (l : IdentityLocker.t) : bool :=
  has_role db uid admin.

Definition select_identity_lockers : list IdentityLocker.t :=
  filter identity_lockers_policy (identity_lockers db).

(** "Users can view their own roles". *)
Definition user_roles_select_policy (r : UserRole.t) : bool :=
  (uid =? UserRole.user_id r) || has_role db uid admin.

(** "Admins manage user roles": FOR ALL, USING and WITH CHECK. *)
Definition user_roles_manage_policy (r : UserRole.t) : bool :=
  has_role db uid admin.

Definition select_user_roles : list UserRole.t :=
  filter (fun r => user_roles_select_policy r || user_roles_manage_policy r) (user_roles db).
End Policies.

(** ** Writing one relation of the database *)

Definition set_user_roles (db : database) (rs : list UserRole.t) : database :=
  mkdb (profiles db) rs (complaints db) (complaint_timeline db) (identity_lockers db).

Definition set_complaints (db : database) (cs : list Complaint.t) : database :=
  mkdb (profiles db) (user_roles db) cs (complaint_timeline db) (identity_lockers db).

Definition set_complaint_timeline (db : database) (es : list TimelineEntry.t) : database :=
  mkdb (profiles db) (user_roles db) (complaints db) es (identity_lockers db).

Definition set_identity_lockers (db : database) (ls : list IdentityLocker.t) : database :=
  mkdb (profiles db) (user_roles db) (complaints db) (complaint_timeline db) ls.

(** ** Trigger functions *)

(** The active complaints of the cap: [status != 'resolved' AND withdrawn_at
    IS NULL]. *)
Definition is_active (c : Complaint.t) : bool :=
  negb (complaint_status_eqb (Complaint.status c) resolved)
  && is_null (Complaint.withdrawn_at c).

(** [SELECT COUNT( * ) FROM public.complaints WHERE student_id = sid AND
    status != 'resolved' AND withdrawn_at IS NULL] *)
Definition active_count (db : database) (sid : uuid) : nat :=
  List.length (filter (fun c => (Complaint.student_id c =? sid) && is_active c) (complaints db)).

Definition limit_message : string :=
  "You cannot have more than 3 active complaints at a time".

(** [public.check_active_complaint_limit()], fired BEFORE INSERT by the
    trigger [enforce_complaint_limit].  SECURITY DEFINER: the count ranges
    over the whole table. *)
Definition check_active_complaint_limit (db : database) (NEW : Complaint.t)
  : result Complaint.t :=
  let active_count := active_count db (Complaint.student_id NEW) in
  if (3 <=? active_count)%nat then Error (raise_exception limit_message)
  else Ok NEW.

(** [INSERT INTO public.complaint_timeline] by a SECURITY DEFINER function:
    no row filter applies, the constraints of the table do. *)
Definition insert_timeline_row (db : database) (e : TimelineEntry.t) : result database :=
  require (negb (timeline_id_exists db (TimelineEntry.id e))) unique_violation ;;
  require (complaint_exists db (TimelineEntry.complaint_id e)) foreign_key_violation ;;
  require (profile_ref_ok db (TimelineEntry.updated_by e)) foreign_key_violation ;;
  Ok (set_complaint_timeline db (complaint_timeline db ++ [e])).

(** The timeline entry [add_complaint_timeline] writes: [(NEW.id,
    NEW.student_id, 'Complaint submitted')], [id] and [created_at] at their
    defaults. *)
Definition creation_entry (NEW : Complaint.t) (tl_id : uuid) (now : timestamptz)
  : TimelineEntry.t :=
  TimelineEntry.mk tl_id (Complaint.id NEW) (Some (Complaint.student_id NEW))
                   "Complaint submitted" now.

(** The locker [create_identity_locker] writes: [(NEW.id, NEW.student_id)],
    the other columns at their defaults. *)
Definition fresh_locker (NEW : Complaint.t) : IdentityLocker.t :=
  IdentityLocker.mk (Complaint.id NEW) (Complaint.student_id NEW) "not_revealed"
                    None None None.

(** [public.add_complaint_timeline()], fired AFTER INSERT by the trigger
    [on_complaint_created].  [tl_id] is the value [gen_random_uuid()] yields
    for the entry and [now] the value of [NOW()]. *)
Definition add_complaint_timeline (db : database) (NEW : Complaint.t)
    (tl_id : uuid) (now : timestamptz) : result database :=
  insert_timeline_row db (creation_entry NEW tl_id now).

(** [public.create_identity_locker()]:
    [INSERT ... VALUES (NEW.id, NEW.student_id) ON CONFLICT (complaint_id) DO
    NOTHING] when [NEW.is_anonymous]. *)
Definition create_identity_locker (db : database) (NEW : Complaint.t) : result database :=
  if Complaint.is_anonymous NEW then
    if locker_exists db (Complaint.id NEW) then Ok db
    else
      require (complaint_exists db (Complaint.id NEW)) foreign_key_violation ;;
      require (profile_exists db (Complaint.student_id NEW)) foreign_key_violation ;;
      Ok (set_identity_lockers db (identity_lockers db ++ [fresh_locker NEW]))
  else Ok db.

(** Trigger [on_anonymous_complaint]: AFTER INSERT, [WHEN (NEW.is_anonymous =
    true)]. *)
Definition on_anonymous_complaint (db : database) (NEW : Complaint.t) : result database :=
  if Complaint.is_anonymous NEW then create_identity_locker db NEW else Ok db.

(** ** Statements on [complaints] *)

Definition opt_uuid_eqb (x y : option uuid) : bool :=
  match x, y with
  | None, None => true
  | Some a, Some b => a =? b
  | _, _ => false
  end.

(** [INSERT INTO public.complaints] by the caller [uid], [NEW] being the row
    with its defaults filled in.  The BEFORE trigger runs first, then the
    policy's WITH CHECK, the row constraints and the keys; the two AFTER
    triggers run in the order of their names. *)
Definition insert_complaint (db : database) (uid : uuid) (NEW : Complaint.t)
    (tl_id : uuid) (now : timestamptz) : result database :=
  NEW <- check_active_complaint_limit db NEW ;;
  require (complaints_insert_check uid NEW) rls_violation ;;
  require (rating_check NEW) check_violation ;;
  require (negb (complaint_exists db (Complaint.id NEW))) unique_violation ;;
  require (profile_exists db (Complaint.student_id NEW)
           && profile_ref_ok db (Complaint.staff_assigned NEW)) foreign_key_violation ;;
  db1 <- on_anonymous_complaint (set_complaints db (complaints db ++ [NEW])) NEW ;;
  add_complaint_timeline db1 NEW tl_id now.

Definition timeline_references (db : database) (c : uuid) : bool :=
  existsb (fun e => TimelineEntry.complaint_id e =? c) (complaint_timeline db).

(** [UPDATE public.complaints SET ... WHERE id = target] by the caller [uid];
    [set] computes the new row from the old one.  A row the USING clauses
    filter out is not updated and nothing is raised; a new row that fails
    WITH CHECK raises.  No trigger is defined for UPDATE.  The foreign keys
    that point at [complaints(id)] have no ON UPDATE action, so a key that is
    still referenced cannot change. *)
Definition update_complaint (db : database) (uid : uuid) (target : uuid)
    (set : Complaint.t -> Complaint.t) : result database :=
  match find (fun c => Complaint.id c =? target) (complaints db) with
  | None => Ok db
  | Some OLD =>
      if complaints_update_using db uid OLD then
        let NEW := set OLD in
        require (complaints_update_check db uid NEW) rls_violation ;;
        require (rating_check NEW) check_violation ;;
        require ((Complaint.id NEW =? Complaint.id OLD)
                 || negb (complaint_exists db (Complaint.id NEW))) unique_violation ;;
        require ((Complaint.student_id NEW =? Complaint.student_id OLD)
                 || profile_exists db (Complaint.student_id NEW)) foreign_key_violation ;;
        require (opt_uuid_eqb (Complaint.staff_assigned NEW) (Complaint.staff_assigned OLD)
                 || profile_ref_ok db (Complaint.staff_assigned NEW)) foreign_key_violation ;;
        require ((Complaint.id NEW =? Complaint.id OLD)
                 || negb (timeline_references db (Complaint.id OLD)
                          || locker_exists db (Complaint.id OLD))) foreign_key_violation ;;
        Ok (set_complaints db
              (map (fun c => if Complaint.id c =? target then set c else c) (complaints db)))
      else Ok db
  end.

(** [SELECT * FROM public.complaints WHERE id = cid] as the caller [uid]
    receives it: the rows the policies let through, whole. *)
Definition read_complaint (db : database) (uid : uuid) (cid : uuid) : list Complaint.t :=
  filter (fun c => Complaint.id c =? cid) (select_complaints db uid).

(** ** The dashboard's queries *)

(** [ORDER BY created_at DESC], as an insertion sort; rows with equal
    timestamps keep the order in which they are met. *)
Fixpoint insert_desc (c : Complaint.t) (l : list Complaint.t) : list Complaint.t :=
  match l with
  | [] => [c]
  | x :: l' =>
      if (Complaint.created_at x <=? Complaint.created_at c)%Z then c :: x :: l'
      else x :: insert_desc c l'
  end.

Definition order_by_created_at_desc (l : list Complaint.t) : list Complaint.t :=
  fold_right insert_desc [] l.

(** The order of the listing: newest first. *)
Definition newer_or_equal (a b : Complaint.t) : Prop :=
  (Complaint.created_at b <= Complaint.created_at a)%Z.

(** [fetchComplaints(userId)] of the dashboard, run by the caller [uid]:
    [from("complaints").select("*").eq("student_id", userId)
     .order("created_at", { ascending: false })]. *)
Definition fetchComplaints (db : database) (uid : uuid) (userId : uuid) : list Complaint.t :=
  order_by_created_at_desc
    (filter (fun c => Complaint.student_id c =? userId) (select_complaints db uid)).

(** [complaints.filter(c => c.status !== "resolved" && !c.withdrawn_at)]; a
    timestamp the store returns is never the empty string, so [!c.withdrawn_at]
    holds exactly for NULL. *)
Definition activeComplaints (complaints : list Complaint.t) : list Complaint.t :=
  filter (fun c => negb (complaint_status_eqb (Complaint.status c) resolved)
                   && negb (negb (is_null (Complaint.withdrawn_at c))))
         complaints.

(** [disabled={activeComplaints.length >= 3}] of the "Submit New Complaint"
    button. *)
Definition submit_disabled (complaints : list Complaint.t) : bool :=
  (3 <=? List.length (activeComplaints complaints))%nat.

(** ** Statements on [identity_lockers] *)

Definition insert_identity_locker (db : database) (uid : uuid) (l : IdentityLocker.t)
  : result database :=
  require (identity_lockers_policy db uid l) rls_violation ;;
  require (negb (locker_exists db (IdentityLocker.complaint_id l))) unique_violation ;;
  require (complaint_exists db (IdentityLocker.complaint_id l)
           && profile_exists db (IdentityLocker.real_student_id l)
           && profile_ref_ok db (IdentityLocker.reveal_requested_by l)) foreign_key_violation ;;
  Ok (set_identity_lockers db (identity_lockers db ++ [l])).

(** [UPDATE public.identity_lockers SET ... WHERE complaint_id = target]. *)
Definition update_identity_locker (db : database) (uid : uuid) (target : uuid)
    (set : IdentityLocker.t -> IdentityLocker.t) : result database :=
  match find (fun l => IdentityLocker.complaint_id l =? target) (identity_lockers db) with
  | None => Ok db
  | Some OLD =>
      if identity_lockers_policy db uid OLD then
        let NEW := set OLD in
        require (identity_lockers_policy db uid NEW) rls_violation ;;
        require ((IdentityLocker.complaint_id NEW =? IdentityLocker.complaint_id OLD)
                 || negb (locker_exists db (IdentityLocker.complaint_id NEW))) unique_violation ;;
        require ((IdentityLocker.complaint_id NEW =? IdentityLocker.complaint_id OLD)
                 || complaint_exists db (IdentityLocker.complaint_id NEW)) foreign_key_violation ;;
        require ((IdentityLocker.real_student_id NEW =? IdentityLocker.real_student_id OLD)
                 || profile_exists db (IdentityLocker.real_student_id NEW)) foreign_key_violation ;;
        require (opt_uuid_eqb (IdentityLocker.reveal_requested_by NEW)
                              (IdentityLocker.reveal_requested_by OLD)
                 || profile_ref_ok db (IdentityLocker.reveal_requested_by NEW))
                foreign_key_violation ;;
        Ok (set_identity_lockers db
              (map (fun l => if IdentityLocker.complaint_id l =? target then set l else l)
                   (identity_lockers db)))
      else Ok db
  end.

(** [DELETE FROM public.identity_lockers WHERE complaint_id = target]: the
    rows the policy filters out stay. *)
Definition delete_identity_locker (db : database) (uid : uuid) (target : uuid) : database :=
  set_identity_lockers db
    (filter (fun l => negb ((IdentityLocker.complaint_id l =? target)
                            && identity_lockers_policy db uid l))
            (identity_lockers db)).

(** ** Statements on [user_roles] *)

(** The key of [UNIQUE (user_id, role)]. *)
Definition role_key (r : UserRole.t) : uuid * app_role :=
  (UserRole.user_id r, UserRole.role r).

Definition role_key_eqb (k k' : uuid * app_role) : bool :=
  (fst k =? fst k') && app_role_eqb (snd k) (snd k').

Definition user_role_id_exists (db : database) (i : uuid) : bool :=
  existsb (fun r => UserRole.id r =? i) (user_roles db).

(** [INSERT INTO public.user_roles]: the migrations define no ON CONFLICT
    handling for this table, so the key [UNIQUE (user_id, role)] raises on a
    pair that is already present. *)
Definition insert_user_role (db : database) (uid : uuid) (r : UserRole.t) : result database :=
  require (user_roles_manage_policy db uid r) rls_violation ;;
  require (negb (user_role_id_exists db (UserRole.id r))) unique_violation ;;
  require (negb (has_role db (UserRole.user_id r) (UserRole.role r))) unique_violation ;;
  require (profile_exists db (UserRole.user_id r)) foreign_key_violation ;;
  Ok (set_user_roles db (user_roles db ++ [r])).

(** [DELETE FROM public.user_roles WHERE user_id = u AND role = r]. *)
Definition delete_user_role (db : database) (uid : uuid) (u : uuid) (r : app_role) : database :=
  set_user_roles db
    (filter (fun x => negb (role_key_eqb (role_key x) (u, r)
                            && user_roles_manage_policy db uid x))
            (user_roles db)).

(** [UPDATE public.user_roles SET ... WHERE user_id = u AND role = r]. *)
Definition update_user_role (db : database) (uid : uuid) (u : uuid) (r : app_role)
    (set : UserRole.t -> UserRole.t) : result database :=
  match find (fun x => role_key_eqb (role_key x) (u, r)) (user_roles db) with
  | None => Ok db
  | Some OLD =>
      if user_roles_manage_policy db uid OLD then
        let NEW := set OLD in
        require (user_roles_manage_policy db uid NEW) rls_violation ;;
        require ((UserRole.id NEW =? UserRole.id OLD)
                 || negb (user_role_id_exists db (UserRole.id NEW))) unique_violation ;;
        require (role_key_eqb (role_key NEW) (role_key OLD)
                 || negb (has_role db (UserRole.user_id NEW) (UserRole.role NEW)))
                unique_violation ;;
        require ((UserRole.user_id NEW =? UserRole.user_id OLD)
                 || profile_exists db (UserRole.user_id NEW)) foreign_key_violation ;;
        Ok (set_user_roles db
              (map (fun x => if role_key_eqb (role_key x) (u, r) then set x else x)
                   (user_roles db)))
      else Ok db
  end.

(** ** The client's statements

    What an authenticated client can send.  [complaint_timeline] has SELECT
    policies only and [complaints] has no DELETE policy: with row-level
    security enabled, an INSERT there raises and an UPDATE or DELETE finds no
    row. *)
Inductive statement :=
| InsertComplaint (NEW : Complaint.t) (tl_id : uuid) (now : timestamptz)
| UpdateComplaint (target : uuid) (set : Complaint.t -> Complaint.t)
| DeleteComplaint (target : uuid)
| InsertTimeline (e : TimelineEntry.t)
| UpdateTimeline (target : uuid) (set : TimelineEntry.t -> TimelineEntry.t)
| DeleteTimeline (target : uuid)
| InsertIdentityLocker (l : IdentityLocker.t)
| UpdateIdentityLocker (target : uuid) (set : IdentityLocker.t -> IdentityLocker.t)
| DeleteIdentityLocker (target : uuid)
| InsertUserRole (r : UserRole.t)
| UpdateUserRole (u : uuid) (r : app_role) (set : UserRole.t -> UserRole.t)
| DeleteUserRole (u : uuid) (r : app_role).

Definition exec (db : database) (uid : uuid) (s : statement) : result database :=
  match s with
  | InsertComplaint NEW tl_id now => insert_complaint db uid NEW tl_id now
  | UpdateComplaint target set => update_complaint db uid target set
  | DeleteComplaint _ => Ok db
  | InsertTimeline _ => Error rls_violation
  | UpdateTimeline _ _ => Ok db
  | DeleteTimeline _ => Ok db
  | InsertIdentityLocker l => insert_identity_locker db uid l
  | UpdateIdentityLocker target set => update_identity_locker db uid target set
  | DeleteIdentityLocker target => Ok (delete_identity_locker db uid target)
  | InsertUserRole r => insert_user_role db uid r
  | UpdateUserRole u r set => update_user_role db uid u r set
  | DeleteUserRole u r => Ok (delete_user_role db uid u r)
  end.

(** The state after a statement: a statement that raises is rolled back. *)
Definition step (db : database) (req : uuid * statement) : database :=
  match exec db (fst req) (snd req) with
  | Ok db' => db'
  | Error _ => db
  end.

(** A run: the statements execute one after another, each in a transaction
    of its own that sees all of the earlier ones; transactions that overlap
    are not described. *)
Definition run (db : database) (reqs : list (uuid * statement)) : database :=
  fold_left step reqs db.

(** A freshly migrated database: accounts and role grants are provisioned,
    no complaint has been filed yet. *)
Definition initial (db : database) : Prop :=
  complaints db = [] /\ complaint_timeline db = [] /\ identity_lockers db = []
  /\ NoDup (map role_key (user_roles db)).

Inductive reachable : database -> Prop :=
| reachable_initial db : initial db -> reachable db
| reachable_step db uid s : reachable db -> reachable (step db (uid, s)).

(** ** The statements the application sends *)

(** The row [handleSubmit] of the submission form inserts:
    [{student_id, title, description, category, severity, is_anonymous,
    status: "submitted"}], the remaining columns at their defaults ([id] from
    [gen_random_uuid()], [created_at] from [NOW()], the rest NULL). *)
Definition submitted_row (id : uuid) (user : uuid) (title description : string)
    (category : complaint_category) (severity : complaint_severity)
    (isAnonymous : bool) (now : timestamptz) : Complaint.t :=
  Complaint.mk id user category severity title description isAnonymous submitted
               None None now None None None.

(** ** Column assignments used below *)

(** [SET status = s] *)
Definition set_status (s : complaint_status) (c : Complaint.t) : Complaint.t :=
  Complaint.mk (Complaint.id c) (Complaint.student_id c) (Complaint.category c)
    (Complaint.severity c) (Complaint.title c) (Complaint.description c)
    (Complaint.is_anonymous c) s (Complaint.staff_assigned c) (Complaint.rating c)
    (Complaint.created_at c) (Complaint.resolved_at c) (Complaint.withdrawn_at c)
    (Complaint.withdrawal_reason c).

(** [SET staff_assigned = m] *)
Definition set_staff_assigned (m : option uuid) (c : Complaint.t) : Complaint.t :=
  Complaint.mk (Complaint.id c) (Complaint.student_id c) (Complaint.category c)
    (Complaint.severity c) (Complaint.title c) (Complaint.description c)
    (Complaint.is_anonymous c) (Complaint.status c) m (Complaint.rating c)
    (Complaint.created_at c) (Complaint.resolved_at c) (Complaint.withdrawn_at c)
    (Complaint.withdrawal_reason c).

(** [SET withdrawn_at = t, withdrawal_reason = why] *)
Definition set_withdrawn (t : option timestamptz) (why : option string) (c : Complaint.t)
  : Complaint.t :=
  Complaint.mk (Complaint.id c) (Complaint.student_id c) (Complaint.category c)
    (Complaint.severity c) (Complaint.title c) (Complaint.description c)
    (Complaint.is_anonymous c) (Complaint.status c) (Complaint.staff_assigned c)
    (Complaint.rating c) (Complaint.created_at c) (Complaint.resolved_at c) t why.

(** [SET reveal_status = s] *)
Definition set_reveal_status (s : string) (l : IdentityLocker.t) : IdentityLocker.t :=
  IdentityLocker.mk (IdentityLocker.complaint_id l) (IdentityLocker.real_student_id l) s
    (IdentityLocker.reveal_reason l) (IdentityLocker.reveal_requested_by l)
    (IdentityLocker.revealed_at l).

(** The reveal workflow has no function of its own in the migrations: an
    admin drives it with UPDATE statements on [identity_lockers], which
    "Admin can manage identity lockers" admits.  [requestReveal] fills the
    request columns, [reveal] stamps the reveal. *)
Definition request_assignment (by_admin : uuid) (reason : string) (l : IdentityLocker.t)
  : IdentityLocker.t :=
  IdentityLocker.mk (IdentityLocker.complaint_id l) (IdentityLocker.real_student_id l)
    "requested" (Some reason) (Some by_admin) (IdentityLocker.revealed_at l).

Definition reveal_assignment (now : timestamptz) (l : IdentityLocker.t) : IdentityLocker.t :=
  IdentityLocker.mk (IdentityLocker.complaint_id l) (IdentityLocker.real_student_id l)
    "revealed" (IdentityLocker.reveal_reason l) (IdentityLocker.reveal_requested_by l)
    (Some now).

Definition requestReveal (db : database) (uid : uuid) (complaintId : uuid) (reason : string)
  : result database :=
  update_identity_locker db uid complaintId (request_assignment uid reason).

Definition reveal (db : database) (uid : uuid) (complaintId : uuid) (now : timestamptz)
  : result database :=
  update_identity_locker db uid complaintId (reveal_assignment now).

(** [grantRole]: an admin's INSERT of the pair; [rid] is the key
    [gen_random_uuid()] yields for the row. *)
Definition grantRole (db : database) (uid : uuid) (rid principalId : uuid) (role : app_role)
  : result database :=
  insert_user_role db uid (UserRole.mk rid principalId role).

(** ** Integrity of a state

    The primary and unique keys, the foreign key of the lockers, the CHECK on
    the rating, and the creation entry every complaint has in the timeline. *)

Record consistent (db : database) : Prop := {
  complaints_pkey : NoDup (map Complaint.id (complaints db));
  lockers_pkey : NoDup (map IdentityLocker.complaint_id (identity_lockers db));
  lockers_fkey : forall l, In l (identity_lockers db) ->
    In (IdentityLocker.complaint_id l) (map Complaint.id (complaints db));
  creation_logged : forall c, In c (complaints db) ->
    exists e, In e (complaint_timeline db)
              /\ TimelineEntry.complaint_id e = Complaint.id c
              /\ TimelineEntry.message e = "Complaint submitted";
  roles_unique : NoDup (map role_key (user_roles db));
  ratings_checked : forall c, In c (complaints db) -> rating_check c = true
}.

(** The statements that can write [identity_lockers]: the INSERT of an
    anonymous complaint, through its trigger, and an admin's statements on the
    relation itself. *)
Definition writes_lockers (db : database) (uid : uuid) (s : statement) : bool :=
  match s with
  | InsertComplaint NEW _ _ => Complaint.is_anonymous NEW
  | InsertIdentityLocker _ | UpdateIdentityLocker _ _ | DeleteIdentityLocker _ =>
      has_role db uid admin
  | _ => false
  end.

(** ** The cap along a run *)

(** Every submitter holds at most 3 active complaints. *)
Definition capped (db : database) : Prop :=
  forall sid, (active_count db sid <= 3)%nat.

(** An update of a complaint that keeps its submitter and does not make an
    inactive complaint (resolved or withdrawn) active again; every other
    statement qualifies. *)
Definition no_reactivation (db : database) (req : uuid * statement) : Prop :=
  match snd req with
  | UpdateComplaint target set =>
      forall c, In c (complaints db) -> Complaint.id c = target ->
        Complaint.student_id (set c) = Complaint.student_id c
        /\ (is_active (set c) = true -> is_active c = true)
  | _ => True
  end.

(** [quiet db reqs]: each request of the run qualifies in the state it runs
    in. *)
Fixpoint quiet (db : database) (reqs : list (uuid * statement)) : Prop :=
  match reqs with
  | [] => True
  | req :: reqs => no_reactivation db req /\ quiet (step db req) reqs
  end.

(** ** A small campus, for the examples *)

Definition asha : uuid := 1.
Definition meera : uuid := 2.
Definition dean : uuid := 3.
Definition ravi : uuid := 4.

(** Asha and Ravi are students, Meera is staff, the dean is the admin. *)
Definition campus : database :=
  mkdb [Profile.mk asha "Asha" "asha@campus.example";
        Profile.mk meera "Meera" "meera@campus.example";
        Profile.mk dean "Dean" "dean@campus.example";
        Profile.mk ravi "Ravi" "ravi@campus.example"]
       [UserRole.mk 11 asha student; UserRole.mk 12 meera staff;
        UserRole.mk 13 dean admin; UserRole.mk 14 ravi student]
       [] [] [].

(** A complaint of Asha's as the submission form sends it. *)
Definition tap (id : uuid) (isAnonymous : bool) : Complaint.t :=
  submitted_row id asha "Leaking tap" "The tap in block B has been leaking for a week"
                hostel low isAnonymous 0%Z.

Definition three_submits : list (uuid * statement) :=
  [(asha, InsertComplaint (tap 100 false) 200 0%Z);
   (asha, InsertComplaint (tap 101 false) 201 0%Z);
   (asha, InsertComplaint (tap 102 false) 202 0%Z)].

(** Asha files three complaints, withdraws one, files a fourth and then
    clears the withdrawal of the first. *)
Definition cap_bypass : list (uuid * statement) :=
  three_submits ++
  [(asha, UpdateComplaint 100 (set_withdrawn (Some 5%Z) (Some "filed by mistake")));
   (asha, InsertComplaint (tap 103 false) 203 6%Z);
   (asha, UpdateComplaint 100 (set_withdrawn None None))].

(** Asha files an anonymous complaint and the dean assigns it to Meera. *)
Definition anonymous_assigned : list (uuid * statement) :=
  [(asha, InsertComplaint (tap 100 true) 200 0%Z);
   (dean, UpdateComplaint 100 (set_staff_assigned (Some meera)))].

(** Whether a statement went through. *)
Definition succeeded {A} (r : result A) : bool :=
  match r with
  | Ok _ => true
  | Error _ => false
  end.

(** Each complaint has an identity locker exactly when its anonymity flag is
    set. *)
Definition lockers_match_flags (db : database) : bool :=
  forallb (fun c => Bool.eqb (locker_exists db (Complaint.id c)) (Complaint.is_anonymous c))
          (complaints db).

(** The number of lockers of a complaint. *)
Definition locker_count (db : database) (cid : uuid) : nat :=
  List.length (filter (fun l => IdentityLocker.complaint_id l =? cid) (identity_lockers db)).

(** Asha files a complaint under her name and the dean inserts a locker for
    it. *)
Definition locker_for_named : list (uuid * statement) :=
  [(asha, InsertComplaint (tap 100 false) 200 0%Z);
   (dean, InsertIdentityLocker (IdentityLocker.mk 100 asha "not_revealed" None None None))].

(** Asha files an anonymous complaint; the dean reveals it with no request
    before, then sets the status back. *)
Definition reveal_unrequested : list (uuid * statement) :=
  [(asha, InsertComplaint (tap 100 true) 200 0%Z);
   (dean, UpdateIdentityLocker 100 (reveal_assignment 9%Z))].

Definition reveal_undone : list (uuid * statement) :=
  reveal_unrequested ++ [(dean, UpdateIdentityLocker 100 (set_reveal_status "not_revealed"))].

(** Asha files a complaint, the dean resolves it, Asha sets it back to
    submitted. *)
Definition resolve_complaint : list (uuid * statement) :=
  [(asha, InsertComplaint (tap 100 false) 200 0%Z);
   (dean, UpdateComplaint 100 (set_status resolved))].

Definition reopen_resolved : list (uuid * statement) :=
  resolve_complaint ++ [(asha, UpdateComplaint 100 (set_status submitted))].

(** ** [profiles] in full, and its statements

    The relation as the second migration leaves it (the column [role] is
    dropped).  Its two policies test [auth.uid() = id] only, so the statements
    on it depend on no other relation. *)

Module ProfileRow.
Record t := mk {
  id : uuid;
  name : string;
  email : string;
  phone : option string;
  hostel : option string;
  created_at : timestamptz;
  updated_at : timestamptz
}.
End ProfileRow.

(** "Users can view their own profile" and the USING clause of "Users can
    update their own profile"; the latter has no WITH CHECK, so the clause
    is applied to the new row too. *)
Definition own_profile (uid : uuid) (p : ProfileRow.t) : bool :=
  uid =? ProfileRow.id p.

(** [SELECT * FROM public.profiles] as the caller sees it. *)
Definition select_profiles (rows : list ProfileRow.t) (uid : uuid) : list ProfileRow.t :=
  filter (own_profile uid) rows.

(** [public.update_updated_at_column()]: [NEW.updated_at = NOW()]. *)
Definition update_updated_at_column (NEW : ProfileRow.t) (now : timestamptz) : ProfileRow.t :=
  ProfileRow.mk (ProfileRow.id NEW) (ProfileRow.name NEW) (ProfileRow.email NEW)
    (ProfileRow.phone NEW) (ProfileRow.hostel NEW) (ProfileRow.created_at NEW) now.

(** [UPDATE public.profiles SET ... WHERE id = target] by the caller [uid].
    The trigger [update_profiles_updated_at] runs BEFORE UPDATE on the row the
    USING clause let through; WITH CHECK and the primary key see the row the
    trigger returns. *)
Definition update_profile (rows : list ProfileRow.t) (uid : uuid) (target : uuid)
    (set : ProfileRow.t -> ProfileRow.t) (now : timestamptz) : result (list ProfileRow.t) :=
  match find (fun p => ProfileRow.id p =? target) rows with
  | None => Ok rows
  | Some OLD =>
      if own_profile uid OLD then
        let NEW := update_updated_at_column (set OLD) now in
        require (own_profile uid NEW) rls_violation ;;
        require ((ProfileRow.id NEW =? ProfileRow.id OLD)
                 || negb (existsb (fun p => ProfileRow.id p =? ProfileRow.id NEW) rows))
                unique_violation ;;
        Ok (map (fun p => if ProfileRow.id p =? target
                          then update_updated_at_column (set p) now else p) rows)
      else Ok rows
  end.

(** Two profiles, and Asha's edit of her hostel with an [updated_at] of her
    own choosing. *)
Definition two_profiles : list ProfileRow.t :=
  [ProfileRow.mk 1 "Asha" "asha@campus.example" None None 0%Z 0%Z;
   ProfileRow.mk 4 "Ravi" "ravi@campus.example" None None 0%Z 0%Z].

Definition move_in_backdated (p : ProfileRow.t) : ProfileRow.t :=
  ProfileRow.mk (ProfileRow.id p) (ProfileRow.name p) (ProfileRow.email p)
    (ProfileRow.phone p) (Some "Block B") (ProfileRow.created_at p) (-5)%Z.

Definition two_profiles_after : list ProfileRow.t :=
  [ProfileRow.mk 1 "Asha" "asha@campus.example" None (Some "Block B") 0%Z 7%Z;
   ProfileRow.mk 4 "Ravi" "ravi@campus.example" None None 0%Z 0%Z].

(** ** Sign-up: [handle_new_user] *)

Module AuthUser.
(** The columns of [auth.users] the trigger function reads;
    [raw_user_meta_data] as the keys of the JSON object with their text. *)
Record t := mk {
  id : uuid;
  email : string;
  raw_user_meta_data : list (string * string)
}.
End AuthUser.

(** [raw_user_meta_data->>'key']: NULL when the object has no such key. *)
Fixpoint json_text (o : list (string * string)) (key : string) : option string :=
  match o with
  | [] => None
  | (k, v) :: o' => if String.eqb k key then Some v else json_text o' key
  end.

(** [COALESCE(x, d)] *)
Definition coalesce {A} (x : option A) (d : A) : A :=
  match x with
  | Some v => v
  | None => d
  end.

(** The columns of [public.profiles] as the first migration creates it. *)
Definition profiles_columns : list string :=
  ["id"; "name"; "email"; "phone"; "role"; "hostel"; "created_at"; "updated_at"].

(** Step 5 of the second migration: [ALTER TABLE public.profiles DROP COLUMN
    role] when the column exists. *)
Definition drop_role_column (columns : list string) : list string :=
  if existsb (String.eqb "role") columns
  then filter (fun c => negb (String.eqb c "role")) columns
  else columns.

(** What the AFTER INSERT trigger [on_auth_user_created] ends in. *)
Inductive signup_outcome :=
| ProfileCreated (db : database)
| UndefinedColumn (column : string)   (* column of relation "profiles" does not exist *)
| SignupRaised (e : sql_error).

(** The target columns of the INSERT in [handle_new_user]. *)
Definition handle_new_user_targets : list string := ["id"; "name"; "email"; "role"].

(** [public.handle_new_user()]: [INSERT INTO public.profiles (id, name,
    email, role) VALUES (NEW.id, COALESCE(NEW.raw_user_meta_data->>'name',
    'Student'), NEW.email, 'student')], run against a [profiles] relation
    whose columns are [columns].  The body of a plpgsql function is resolved
    when it runs: a target column the relation lacks raises then. *)
Definition handle_new_user (columns : list string) (db : database) (NEW : AuthUser.t)
  : signup_outcome :=
  match find (fun c => negb (existsb (String.eqb c) columns)) handle_new_user_targets with
  | Some c => UndefinedColumn c
  | None =>
      if profile_exists db (AuthUser.id NEW) then SignupRaised unique_violation
      else ProfileCreated
             (mkdb (profiles db ++
                    [Profile.mk (AuthUser.id NEW)
                       (coalesce (json_text (AuthUser.raw_user_meta_data NEW) "name")
                                 "Student")
                       (AuthUser.email NEW)])
                   (user_roles db) (complaints db) (complaint_timeline db)
                   (identity_lockers db))
  end.

(** ** The submission form: [handleSubmit] *)

(** A JavaScript string is a sequence of UTF-16 code units, and its [length]
    is their number. *)
Definition js_string := list N.

(** A literal of the source made of ASCII characters: one code unit each. *)
Definition js_literal (s : string) : js_string :=
  map Ascii.N_of_ascii (list_ascii_of_string s).

(** [===] on strings. *)
Fixpoint js_eqb (s t : js_string) : bool :=
  match s, t with
  | [], [] => true
  | u :: s', v :: t' => (u =? v) && js_eqb s' t'
  | _, _ => false
  end.

Module FormData.
Record t := mk {
  title : js_string;
  description : js_string;
  category : js_string;
  severity : js_string;
  isAnonymous : bool
}.
End FormData.

(** An issue of a zod parse; [path] is the field. *)
Inductive zod_issue :=
| too_small (path : string) (message : string)
| too_big (path : string) (maximum : nat)
| invalid_enum_value (path : string) (received : js_string).

(** [z.enum(["hostel", "academic", "food", "infrastructure", "other"])] *)
Definition parse_category (s : js_string) : option complaint_category :=
  if js_eqb s (js_literal "hostel") then Some hostel
  else if js_eqb s (js_literal "academic") then Some academic
  else if js_eqb s (js_literal "food") then Some food
  else if js_eqb s (js_literal "infrastructure") then Some infrastructure
  else if js_eqb s (js_literal "other") then Some other
  else None.

(** [z.enum(["low", "medium", "high"])] *)
Definition parse_severity (s : js_string) : option complaint_severity :=
  if js_eqb s (js_literal "low") then Some low
  else if js_eqb s (js_literal "medium") then Some medium
  else if js_eqb s (js_literal "high") then Some high
  else None.

(** [z.string().min(min, message).max(max)]: the checks run in the order they
    are chained, each on the string's [length] in code units. *)
Definition string_issues (path : string) (min : nat) (message : string) (max : nat)
    (s : js_string) : list zod_issue :=
  (if (List.length s <? min)%nat then [too_small path message] else [])
  ++ (if (max <? List.length s)%nat then [too_big path max] else []).

Definition enum_issues {A} (path : string) (parse : js_string -> option A) (s : js_string)
  : list zod_issue :=
  match parse s with
  | Some _ => []
  | None => [invalid_enum_value path s]
  end.

(** The issues [complaintSchema.parse] collects, field by field in the order
    of the schema. *)
Definition complaintSchema_issues (f : FormData.t) : list zod_issue :=
  string_issues "title" 5 "Title must be at least 5 characters" 100 (FormData.title f)
  ++ string_issues "description" 20 "Description must be at least 20 characters" 1000
                   (FormData.description f)
  ++ enum_issues "category" parse_category (FormData.category f)
  ++ enum_issues "severity" parse_severity (FormData.severity f).

Module Validated.
(** What [complaintSchema.parse] returns. *)
Record t := mk {
  title : js_string;
  description : js_string;
  category : complaint_category;
  severity : complaint_severity
}.
End Validated.

(** [complaintSchema.parse]: the typed value, or the first issue of the
    ZodError it throws ([error.errors[0]]). *)
Definition complaintSchema_parse (f : FormData.t) : Validated.t + zod_issue :=
  let early :=
    string_issues "title" 5 "Title must be at least 5 characters" 100 (FormData.title f)
    ++ string_issues "description" 20 "Description must be at least 20 characters" 1000
                     (FormData.description f) in
  match parse_category (FormData.category f), parse_severity (FormData.severity f) with
  | Some category, Some severity =>
      match early with
      | [] => inl (Validated.mk (FormData.title f) (FormData.description f) category severity)
      | i :: _ => inr i
      end
  | None, _ => inr (hd (invalid_enum_value "category" (FormData.category f)) early)
  | Some _, None => inr (hd (invalid_enum_value "severity" (FormData.severity f)) early)
  end.

(** The text of a toast: a literal of the source, or the message zod or the
    server words for an issue, an error or a request it cannot read. *)
Inductive toast_text :=
| text (s : string)
| zod_default_message (i : zod_issue)
| server_message (e : sql_error)
| unreadable_request_message.

(** [error.errors[0].message] *)
Definition issue_message (i : zod_issue) : toast_text :=
  match i with
  | too_small _ message => text message
  | _ => zod_default_message i
  end.

(** [error.message || "Failed to submit complaint"]: the text of a RAISE
    EXCEPTION is the message the client receives. *)
Definition error_message (e : sql_error) : toast_text :=
  match e with
  | raise_exception msg =>
      if String.eqb msg "" then text "Failed to submit complaint" else text msg
  | _ => server_message e
  end.

Record submit_outcome := mk_outcome {
  toast_title : string;
  toast_description : toast_text;
  destructive : bool;
  navigated : option string;
  store : database
}.

(** [handleSubmit]: [user] is what [supabase.auth.getUser()] returns, [id]
    and [tl_id] what [gen_random_uuid()] yields for the two rows and [now] the
    value of [NOW()] in the statement.  [as_text] is the text the store
    receives for a JavaScript string, and nothing for a string a [text]
    column cannot hold (a lone surrogate, the character U+0000), in which case
    the request comes back with an error; the encoding is the client
    library's and the server's. *)
Definition handleSubmit (as_text : js_string -> option string) (db : database)
    (user : option uuid) (formData : FormData.t) (id tl_id : uuid) (now : timestamptz)
  : submit_outcome :=
  match user with
  | None => mk_outcome "Error" (text "Not authenticated") true None db
  | Some user =>
      match complaintSchema_parse formData with
      | inr i => mk_outcome "Validation Error" (issue_message i) true None db
      | inl validated =>
          match as_text (Validated.title validated),
                as_text (Validated.description validated) with
          | Some title, Some description =>
              match insert_complaint db user
                      (submitted_row id user title description
                         (Validated.category validated) (Validated.severity validated)
                         (FormData.isAnonymous formData) now)
                      tl_id now with
              | Ok db' =>
                  mk_outcome "Complaint Submitted"
                    (text "Your complaint has been submitted successfully and will be reviewed soon.")
                    false (Some "/dashboard") db'
              | Error e => mk_outcome "Error" (error_message e) true None db
              end
          | _, _ => mk_outcome "Error" unreadable_request_message true None db
          end
      end
  end.

(** UTF-8, for the examples: the code points of a well-formed UTF-16
    sequence without U+0000, and their bytes. *)
Fixpoint code_points (units : js_string) : option (list N) :=
  match units with
  | [] => Some []
  | u :: rest =>
      if (55296 <=? u) && (u <=? 56319) then
        match rest with
        | v :: rest' =>
            if (56320 <=? v) && (v <=? 57343)
            then option_map (cons (65536 + (u - 55296) * 1024 + (v - 56320)))
                            (code_points rest')
            else None
        | [] => None
        end
      else if (56320 <=? u) && (u <=? 57343) then None
      else if u =? 0 then None
      else option_map (cons u) (code_points rest)
  end.

Definition utf8_bytes (cp : N) : list N :=
  if cp <? 128 then [cp]
  else if cp <? 2048 then [192 + cp / 64; 128 + cp mod 64]
  else if cp <? 65536 then [224 + cp / 4096; 128 + (cp / 64) mod 64; 128 + cp mod 64]
  else [240 + cp / 262144; 128 + (cp / 4096) mod 64; 128 + (cp / 64) mod 64;
        128 + cp mod 64].

Definition utf8_text (s : js_string) : option string :=
  option_map (fun cps => string_of_list_ascii
                           (map Ascii.ascii_of_N (flat_map utf8_bytes cps)))
             (code_points s).

(** The form Asha fills in for the leaking tap, anonymously. *)
Definition tap_form : FormData.t :=
  FormData.mk (js_literal "Leaking tap")
              (js_literal "The tap in block B has been leaking for a week")
              (js_literal "hostel") (js_literal "low") true.

(** The same form with the four-letter title "caf" and U+00E9: five bytes
    of UTF-8, four code units. *)
Definition cafe_form : FormData.t :=
  FormData.mk [99; 97; 102; 233]
              (js_literal "The tap in block B has been leaking for a week")
              (js_literal "hostel") (js_literal "low") true.

(** ** The dashboard's sections *)

(** [complaints.filter(c => c.status === "resolved")] *)
Definition resolvedComplaints (complaints : list Complaint.t) : list Complaint.t :=
  filter (fun c => complaint_status_eqb (Complaint.status c) resolved) complaints.

(** The rows neither section shows: withdrawn and not resolved. *)
Definition unlisted (complaints : list Complaint.t) : list Complaint.t :=
  filter (fun c => negb (complaint_status_eqb (Complaint.status c) resolved)
                   && negb (is_null (Complaint.withdrawn_at c)))
         complaints.

(** ** The first migration's version of the limit check *)

(** [public.check_active_complaint_limit()] as the first migration defines
    it, without SECURITY DEFINER: the count ranges over the rows the caller's
    SELECT policy lets through, which in that schema is "Students can view
    their own complaints" alone. *)
Definition check_active_complaint_limit_invoker (db : database) (uid : uuid)
    (NEW : Complaint.t) : result Complaint.t :=
  let active_count :=
    List.length
      (filter (fun c => (Complaint.student_id c =? Complaint.student_id NEW) && is_active c)
              (filter (own_complaint uid) (complaints db))) in
  if (3 <=? active_count)%nat then Error (raise_exception limit_message)
  else Ok NEW.

(** ** From the first schema to the second *)

Module V1.
(** [CREATE TYPE public.user_role AS ENUM ('student', 'staff', 'admin')] *)
Inductive user_role := student | staff | admin.

(** A row of [profiles] with the column [role] the first migration gives
    it. *)
Record profile := mk_profile {
  id : uuid;
  name : string;
  email : string;
  role : user_role
}.

(** The relations of the first migration. *)
Record database := mk {
  profiles : list profile;
  complaints : list Complaint.t;
  complaint_timeline : list TimelineEntry.t
}.
End V1.

(** What the second migration does to the data: [user_roles] and
    [identity_lockers] are created, empty; the column [role] of [profiles] is
    dropped; no statement of the migration copies a row. *)
Definition migrate (s : V1.database) : database :=
  mkdb (map (fun p => Profile.mk (V1.id p) (V1.name p) (V1.email p)) (V1.profiles s))
       []
       (V1.complaints s)
       (V1.complaint_timeline s)
       [].

(** A database of the first schema: the dean is its admin by [profiles.role]
    and Asha has an anonymous complaint on file. *)
Definition old_campus : V1.database :=
  V1.mk [V1.mk_profile 1 "Asha" "asha@campus.example" V1.student;
         V1.mk_profile 3 "Dean" "dean@campus.example" V1.admin]
        [tap 100 true]
        [creation_entry (tap 100 true) 200 0%Z].

(** * Properties *)

(** ** Enumerations *)

Lemma app_role_eqb_eq a b : app_role_eqb a b = true <-> a = b.
Proof. destruct a, b; simpl; split; congruence. Qed.

Lemma complaint_status_eqb_eq a b : complaint_status_eqb a b = true <-> a = b.
Proof. destruct a, b; simpl; split; congruence. Qed.

Lemma role_key_eqb_spec k k' : reflect (k = k') (role_key_eqb k k').
Proof.
  destruct k as [u r], k' as [u' r']. unfold role_key_eqb. simpl.
  destruct (N.eqb_spec u u') as [->|Hu]; simpl.
  - destruct (app_role_eqb r r') eqn:E.
    + apply app_role_eqb_eq in E. subst. now constructor.
    + constructor. intros H. inversion H; subst.
      destruct r'; discriminate.
  - constructor. congruence.
Qed.

(** ** Lists of rows and their keys *)

Section Keys.
Context {A K : Type} (key : A -> K) (eqb : K -> K -> bool).
Hypothesis eqb_spec : forall x y, reflect (x = y) (eqb x y).

Lemma existsb_key (l : list A) (i : K) :
  existsb (fun a => eqb (key a) i) l = true <-> In i (map key l).
Proof.
  rewrite existsb_exists, in_map_iff. split.
  - intros (a & Ha & E). destruct (eqb_spec (key a) i); [eauto | discriminate].
  - intros (a & E & Ha). exists a. split; [assumption|].
    destruct (eqb_spec (key a) i); congruence.
Qed.

Lemma existsb_key_false (l : list A) (i : K) :
  existsb (fun a => eqb (key a) i) l = false <-> ~ In i (map key l).
Proof.
  rewrite <- existsb_key. destruct (existsb _ l); split; congruence.
Qed.

Lemma find_key (l : list A) (t : K) (a : A) :
  find (fun a => eqb (key a) t) l = Some a -> In a l /\ key a = t.
Proof.
  intros H. apply find_some in H. destruct H as [H E].
  destruct (eqb_spec (key a) t); [auto | discriminate].
Qed.

Lemma find_key_none (l : list A) (t : K) :
  find (fun a => eqb (key a) t) l = None -> ~ In t (map key l).
Proof.
  intros H Hin. apply in_map_iff in Hin. destruct Hin as (a & E & Ha).
  apply (find_none _ _ H) in Ha. destruct (eqb_spec (key a) t); congruence.
Qed.

Lemma key_unique (l : list A) (a b : A) :
  NoDup (map key l) -> In a l -> In b l -> key a = key b -> a = b.
Proof.
  induction l as [|x l IH]; simpl; [tauto|].
  intros Hnd Ha Hb E. inversion Hnd as [|? ? Hx Hl]; subst.
  destruct Ha as [->|Ha], Hb as [->|Hb]; auto.
  - exfalso. apply Hx. rewrite E. now apply in_map.
  - exfalso. apply Hx. rewrite <- E. now apply in_map.
Qed.

Lemma map_untouched (l : list A) (t : K) (g : A -> A) :
  ~ In t (map key l) -> map (fun a => if eqb (key a) t then g a else a) l = l.
Proof.
  induction l as [|x l IH]; simpl; [reflexivity|]. intros H.
  destruct (eqb_spec (key x) t) as [E|E]; [tauto|]. f_equal. apply IH. tauto.
Qed.

(** Rewriting the row with key [t]: the keys stay distinct when the new key
    is the old one or a key the table does not hold. *)
Lemma NoDup_map_rekey (l : list A) (t : K) (g : A -> A) :
  NoDup (map key l) ->
  (forall a, In a l -> key a = t -> key (g a) = t \/ ~ In (key (g a)) (map key l)) ->
  NoDup (map key (map (fun a => if eqb (key a) t then g a else a) l)).
Proof.
  induction l as [|x l IH]; simpl; intros Hnd Hg; [constructor|].
  inversion Hnd as [|? ? Hx Hl]; subst.
  destruct (eqb_spec (key x) t) as [E|E].
  - rewrite map_untouched by (rewrite <- E; exact Hx).
    constructor; [|assumption].
    destruct (Hg x (or_introl eq_refl) E) as [E'|Hn].
    + rewrite E', <- E. exact Hx.
    + intro Hin. apply Hn. now right.
  - constructor.
    + rewrite in_map_iff. intros (y & Ey & Hy). apply in_map_iff in Hy.
      destruct Hy as (z & Ez & Hz). subst y.
      destruct (eqb_spec (key z) t) as [Et|Et].
      * destruct (Hg z (or_intror Hz) Et) as [E'|Hn]; [congruence|].
        apply Hn. left. symmetry. exact Ey.
      * apply Hx. rewrite <- Ey. now apply in_map.
    + apply IH; [assumption|]. intros a Ha Ea.
      destruct (Hg a (or_intror Ha) Ea) as [E'|Hn]; [now left|].
      right. intro Hin. apply Hn. now right.
Qed.

Lemma in_map_rekey (l : list A) (t : K) (g : A -> A) (b : A) :
  In b (map (fun a => if eqb (key a) t then g a else a) l) ->
  (In b l /\ key b <> t) \/ (exists a, In a l /\ key a = t /\ b = g a).
Proof.
  rewrite in_map_iff. intros (a & E & Ha).
  destruct (eqb_spec (key a) t) as [Et|Et]; subst b; eauto.
Qed.

Lemma in_map_rekey_other (l : list A) (t : K) (g : A -> A) (a : A) :
  In a l -> key a <> t -> In a (map (fun a => if eqb (key a) t then g a else a) l).
Proof.
  intros Ha Hk. apply in_map_iff. exists a. split; [|assumption].
  destruct (eqb_spec (key a) t); [contradiction | reflexivity].
Qed.

Lemma in_map_rekey_target (l : list A) (t : K) (g : A -> A) (a : A) :
  In a l -> key a = t -> In (g a) (map (fun a => if eqb (key a) t then g a else a) l).
Proof.
  intros Ha Hk. apply in_map_iff. exists a. split; [|assumption].
  destruct (eqb_spec (key a) t); [reflexivity | contradiction].
Qed.
End Keys.

Lemma NoDup_snoc {A} (l : list A) (a : A) : NoDup l -> ~ In a l -> NoDup (l ++ [a]).
Proof.
  intros Hl Ha. apply NoDup_rev in Hl. rewrite <- (rev_involutive (l ++ [a])).
  apply NoDup_rev. rewrite rev_app_distr. simpl. constructor; [|assumption].
  now rewrite <- in_rev.
Qed.

(** Deleting rows keeps the remaining keys distinct. *)
Lemma distinct_keys_after_delete {Row Key} (key : Row -> Key) (keep : Row -> bool)
    (rows : list Row) (Hdistinct : NoDup (map key rows)) :
  NoDup (map key (filter keep rows)).
Proof.
  induction rows as [|r rows IH]; simpl in *; [constructor|].
  apply NoDup_cons_iff in Hdistinct. destruct Hdistinct as [Hr Hrows].
  destruct (keep r); simpl; [|now apply IH].
  apply NoDup_cons_iff. split; [|now apply IH].
  rewrite in_map_iff. intros (r' & Ekey & Hin). apply filter_In in Hin.
  apply Hr. rewrite <- Ekey. apply in_map. tauto.
Qed.

(** ** Results *)

Lemma require_ok {A} (b : bool) (e : sql_error) (k : result A) (r : A) :
  (require b e ;; k) = Ok r -> b = true /\ k = Ok r.
Proof. destruct b; simpl; [auto | discriminate]. Qed.

Lemma require_true {A} (b : bool) (e : sql_error) (k : result A) :
  b = true -> (require b e ;; k) = k.
Proof. intros ->. reflexivity. Qed.

Ltac requires H :=
  repeat (let Hb := fresh "Hreq" in
          apply require_ok in H; destruct H as [Hb H]).

Lemma has_role_key (db : database) (u : uuid) (r : app_role) :
  has_role db u r = true <-> In (u, r) (map role_key (user_roles db)).
Proof.
  unfold has_role. rewrite existsb_exists, in_map_iff. split.
  - intros (x & Hx & E). apply andb_true_iff in E. destruct E as [E1 E2].
    apply N.eqb_eq in E1. apply app_role_eqb_eq in E2. exists x. unfold role_key.
    split; [congruence | assumption].
  - intros (x & E & Hx). exists x. split; [assumption|]. unfold role_key in E.
    inversion E; subst. rewrite N.eqb_refl. now apply app_role_eqb_eq.
Qed.

(** ** What a successful statement did *)

Lemma create_identity_locker_inv db NEW db' :
  create_identity_locker db NEW = Ok db' ->
  profiles db' = profiles db /\ user_roles db' = user_roles db
  /\ complaints db' = complaints db /\ complaint_timeline db' = complaint_timeline db
  /\ identity_lockers db' =
       identity_lockers db ++
       (if Complaint.is_anonymous NEW && negb (locker_exists db (Complaint.id NEW))
        then [fresh_locker NEW] else []).
Proof.
  unfold create_identity_locker. intros H.
  destruct (Complaint.is_anonymous NEW); simpl.
  - destruct (locker_exists db (Complaint.id NEW)); simpl.
    + inversion H; subst. rewrite app_nil_r. tauto.
    + requires H. inversion H; subst. simpl. tauto.
  - inversion H; subst. rewrite app_nil_r. tauto.
Qed.

Lemma insert_complaint_inv db uid NEW tl_id now db' :
  insert_complaint db uid NEW tl_id now = Ok db' ->
  (active_count db (Complaint.student_id NEW) < 3)%nat
  /\ uid = Complaint.student_id NEW
  /\ rating_check NEW = true
  /\ complaint_exists db (Complaint.id NEW) = false
  /\ profiles db' = profiles db /\ user_roles db' = user_roles db
  /\ complaints db' = complaints db ++ [NEW]
  /\ complaint_timeline db' = complaint_timeline db ++ [creation_entry NEW tl_id now]
  /\ identity_lockers db' =
       identity_lockers db ++
       (if Complaint.is_anonymous NEW && negb (locker_exists db (Complaint.id NEW))
        then [fresh_locker NEW] else []).
Proof.
  unfold insert_complaint, check_active_complaint_limit. intros H.
  destruct (3 <=? active_count db (Complaint.student_id NEW))%nat eqn:Hc;
    [discriminate|]. simpl in H. apply Nat.leb_gt in Hc.
  requires H.
  destruct (on_anonymous_complaint _ NEW) as [db1|] eqn:H1; [|discriminate].
  simpl in H. unfold add_complaint_timeline, insert_timeline_row in H. requires H.
  inversion H; subst db'; clear H. simpl.
  assert (H1' : create_identity_locker
                  (set_complaints db (complaints db ++ [NEW])) NEW = Ok db1).
  { unfold on_anonymous_complaint in H1. unfold create_identity_locker in *.
    destruct (Complaint.is_anonymous NEW); assumption. }
  apply create_identity_locker_inv in H1'. simpl in H1'.
  destruct H1' as (-> & -> & -> & -> & ->).
  unfold complaints_insert_check, own_complaint in Hreq. apply N.eqb_eq in Hreq.
  apply negb_true_iff in Hreq1.
  repeat split; auto.
Qed.

Lemma update_complaint_inv db uid target set db' :
  update_complaint db uid target set = Ok db' ->
  db' = db \/
  exists OLD,
    find (fun c => Complaint.id c =? target) (complaints db) = Some OLD
    /\ complaints_update_using db uid OLD = true
    /\ complaints_update_check db uid (set OLD) = true
    /\ rating_check (set OLD) = true
    /\ (Complaint.id (set OLD) = Complaint.id OLD
        \/ complaint_exists db (Complaint.id (set OLD)) = false)
    /\ (Complaint.id (set OLD) = Complaint.id OLD
        \/ (timeline_references db (Complaint.id OLD) = false
            /\ locker_exists db (Complaint.id OLD) = false))
    /\ db' = set_complaints db
               (map (fun c => if Complaint.id c =? target then set c else c)
                    (complaints db)).
Proof.
  unfold update_complaint. intros H.
  destruct (find _ (complaints db)) as [OLD|] eqn:Hf; [|left; congruence].
  destruct (complaints_update_using db uid OLD) eqn:Hu; [|left; congruence].
  right. exists OLD. cbv zeta in H. requires H. inversion H; subst db'.
  repeat split; auto.
  - apply orb_true_iff in Hreq1. destruct Hreq1 as [E|E];
      [left; now apply N.eqb_eq | right; now apply negb_true_iff].
  - apply orb_true_iff in Hreq4. destruct Hreq4 as [E|E]; [left; now apply N.eqb_eq|].
    right. apply negb_true_iff, orb_false_iff in E. exact E.
Qed.

Lemma insert_identity_locker_inv db uid l db' :
  insert_identity_locker db uid l = Ok db' ->
  has_role db uid admin = true
  /\ locker_exists db (IdentityLocker.complaint_id l) = false
  /\ complaint_exists db (IdentityLocker.complaint_id l) = true
  /\ db' = set_identity_lockers db (identity_lockers db ++ [l]).
Proof.
  unfold insert_identity_locker. intros H. requires H. inversion H; subst.
  apply negb_true_iff in Hreq0.
  apply andb_true_iff in Hreq1. destruct Hreq1 as [Hreq1 _].
  apply andb_true_iff in Hreq1. destruct Hreq1 as [Hreq1 _]. auto.
Qed.

Lemma update_identity_locker_inv db uid target set db' :
  update_identity_locker db uid target set = Ok db' ->
  db' = db \/
  exists OLD,
    find (fun l => IdentityLocker.complaint_id l =? target) (identity_lockers db) = Some OLD
    /\ has_role db uid admin = true
    /\ (IdentityLocker.complaint_id (set OLD) = IdentityLocker.complaint_id OLD
        \/ locker_exists db (IdentityLocker.complaint_id (set OLD)) = false)
    /\ (IdentityLocker.complaint_id (set OLD) = IdentityLocker.complaint_id OLD
        \/ complaint_exists db (IdentityLocker.complaint_id (set OLD)) = true)
    /\ db' = set_identity_lockers db
               (map (fun l => if IdentityLocker.complaint_id l =? target then set l else l)
                    (identity_lockers db)).
Proof.
  unfold update_identity_locker. intros H.
  destruct (find _ (identity_lockers db)) as [OLD|] eqn:Hf; [|left; congruence].
  destruct (identity_lockers_policy db uid OLD) eqn:Hu; [|left; congruence].
  right. exists OLD. cbv zeta in H. requires H. inversion H; subst db'.
  repeat split; auto.
  - apply orb_true_iff in Hreq0. destruct Hreq0 as [E|E];
      [left; now apply N.eqb_eq | right; now apply negb_true_iff].
  - apply orb_true_iff in Hreq1. destruct Hreq1 as [E|E];
      [left; now apply N.eqb_eq | right; assumption].
Qed.

Lemma insert_user_role_inv db uid r db' :
  insert_user_role db uid r = Ok db' ->
  has_role db uid admin = true
  /\ has_role db (UserRole.user_id r) (UserRole.role r) = false
  /\ db' = set_user_roles db (user_roles db ++ [r]).
Proof.
  unfold insert_user_role. intros H. requires H. inversion H; subst.
  apply negb_true_iff in Hreq1. auto.
Qed.

Lemma update_user_role_inv db uid u r set db' :
  update_user_role db uid u r set = Ok db' ->
  db' = db \/
  exists OLD,
    find (fun x => role_key_eqb (role_key x) (u, r)) (user_roles db) = Some OLD
    /\ (role_key (set OLD) = role_key OLD
        \/ has_role db (UserRole.user_id (set OLD)) (UserRole.role (set OLD)) = false)
    /\ db' = set_user_roles db
               (map (fun x => if role_key_eqb (role_key x) (u, r) then set x else x)
                    (user_roles db)).
Proof.
  unfold update_user_role. intros H.
  destruct (find _ (user_roles db)) as [OLD|] eqn:Hf; [|left; congruence].
  destruct (user_roles_manage_policy db uid OLD); [|left; congruence].
  right. exists OLD. cbv zeta in H. requires H. inversion H; subst db'.
  repeat split; auto.
  apply orb_true_iff in Hreq1. destruct Hreq1 as [E|E].
  - left. now destruct (role_key_eqb_spec (role_key (set OLD)) (role_key OLD)).
  - right. now apply negb_true_iff.
Qed.

(** ** Integrity of the reachable states

    The declarative constraints of the schema, and the audit entry every
    complaint is created with, hold in every state a sequence of client
    statements can reach. *)

Lemma consistent_initial db : initial db -> consistent db.
Proof.
  intros (Hc & Ht & Hl & Hr). constructor; rewrite ?Hc, ?Hl; simpl;
    try constructor; try tauto.
Qed.

Lemma complaint_exists_in db i :
  complaint_exists db i = true <-> In i (map Complaint.id (complaints db)).
Proof. apply (existsb_key Complaint.id N.eqb N.eqb_spec). Qed.

Lemma complaint_exists_not_in db i :
  complaint_exists db i = false <-> ~ In i (map Complaint.id (complaints db)).
Proof. apply (existsb_key_false Complaint.id N.eqb N.eqb_spec). Qed.

Lemma locker_exists_in db i :
  locker_exists db i = true <-> In i (map IdentityLocker.complaint_id (identity_lockers db)).
Proof. apply (existsb_key IdentityLocker.complaint_id N.eqb N.eqb_spec). Qed.

Lemma locker_exists_not_in db i :
  locker_exists db i = false
  <-> ~ In i (map IdentityLocker.complaint_id (identity_lockers db)).
Proof. apply (existsb_key_false IdentityLocker.complaint_id N.eqb N.eqb_spec). Qed.

Lemma timeline_references_not_in db i :
  timeline_references db i = false
  <-> ~ In i (map TimelineEntry.complaint_id (complaint_timeline db)).
Proof. apply (existsb_key_false TimelineEntry.complaint_id N.eqb N.eqb_spec). Qed.

Lemma consistent_insert_complaint db uid NEW tl_id now db' :
  consistent db -> insert_complaint db uid NEW tl_id now = Ok db' -> consistent db'.
Proof.
  intros [Hpk Hlpk Hfk Hlog Hru Hrc] H. apply insert_complaint_inv in H.
  destruct H as (_ & _ & Hrat & Hnew & _ & Er & Ec & Et & El).
  apply complaint_exists_not_in in Hnew.
  assert (Hno : locker_exists db (Complaint.id NEW) = false).
  { apply locker_exists_not_in. intros Hin. apply in_map_iff in Hin.
    destruct Hin as (l & E & Hl). apply Hnew. rewrite <- E. now apply Hfk. }
  rewrite Hno, andb_true_r in El.
  constructor; rewrite ?Er, ?Ec, ?Et, ?El; auto.
  - rewrite map_app. simpl. now apply NoDup_snoc.
  - destruct (Complaint.is_anonymous NEW).
    + rewrite map_app. simpl. apply NoDup_snoc; [assumption|].
      now apply locker_exists_not_in.
    + now rewrite app_nil_r.
  - intros l Hl. rewrite map_app. apply in_or_app. apply in_app_or in Hl.
    destruct Hl as [Hl|Hl]; [left; now apply Hfk|].
    right. destruct (Complaint.is_anonymous NEW); simpl in Hl; [|contradiction].
    destruct Hl as [<-|[]]. simpl. now left.
  - intros c Hc. apply in_app_or in Hc. destruct Hc as [Hc|[<-|[]]].
    + destruct (Hlog c Hc) as (e & He & E1 & E2). exists e.
      split; [apply in_or_app; now left | auto].
    + exists (creation_entry NEW tl_id now).
      split; [apply in_or_app; right; now left | auto].
  - intros c Hc. apply in_app_or in Hc. destruct Hc as [Hc|[<-|[]]]; auto.
Qed.

Lemma consistent_update_complaint db uid target set db' :
  consistent db -> update_complaint db uid target set = Ok db' -> consistent db'.
Proof.
  intros Hdb H. apply update_complaint_inv in H.
  destruct H as [->|(OLD & Hf & _ & _ & Hrat & Huniq & Href & ->)]; [assumption|].
  destruct Hdb as [Hpk Hlpk Hfk Hlog Hru Hrc].
  apply (find_key Complaint.id N.eqb N.eqb_spec) in Hf. destruct Hf as [HO EO].
  assert (Hsame : forall a, In a (complaints db) -> Complaint.id a = target -> a = OLD).
  { intros a Ha Ea. apply (key_unique Complaint.id (complaints db)); congruence. }
  constructor; simpl; auto.
  - apply (NoDup_map_rekey Complaint.id N.eqb N.eqb_spec); [assumption|].
    intros a Ha Ea. rewrite (Hsame a Ha Ea).
    destruct Huniq as [E|E]; [left; congruence | right; now apply complaint_exists_not_in].
  - intros l Hl. specialize (Hfk l Hl). apply in_map_iff in Hfk.
    destruct Hfk as (c & Ec & Hc). apply in_map_iff.
    destruct (N.eq_dec (Complaint.id c) target) as [Et|Et].
    + rewrite (Hsame c Hc Et) in *. destruct Href as [E|[_ E]].
      * exists (set OLD). split; [congruence|].
        now apply (in_map_rekey_target Complaint.id N.eqb N.eqb_spec).
      * exfalso. apply locker_exists_not_in in E. apply E. rewrite Ec.
        now apply in_map.
    + exists c. split; [assumption|].
      now apply (in_map_rekey_other Complaint.id N.eqb N.eqb_spec).
  - intros c Hc. apply (in_map_rekey Complaint.id N.eqb N.eqb_spec) in Hc.
    destruct Hc as [[Hc _]|(a & Ha & Ea & ->)]; [auto|].
    rewrite (Hsame a Ha Ea). destruct (Hlog OLD HO) as (e & He & E1 & E2).
    destruct Href as [E|[E _]].
    + exists e. repeat split; congruence.
    + exfalso. apply timeline_references_not_in in E. apply E. rewrite <- E1.
      now apply in_map.
  - intros c Hc. apply (in_map_rekey Complaint.id N.eqb N.eqb_spec) in Hc.
    destruct Hc as [[Hc _]|(a & Ha & Ea & ->)]; [auto|].
    now rewrite (Hsame a Ha Ea).
Qed.

Lemma consistent_insert_identity_locker db uid l db' :
  consistent db -> insert_identity_locker db uid l = Ok db' -> consistent db'.
Proof.
  intros [Hpk Hlpk Hfk Hlog Hru Hrc] H. apply insert_identity_locker_inv in H.
  destruct H as (_ & Hno & Hex & ->). constructor; simpl; auto.
  - rewrite map_app. simpl. apply NoDup_snoc; [assumption|].
    now apply locker_exists_not_in.
  - intros l' Hl'. apply in_app_or in Hl'. destruct Hl' as [Hl'|[<-|[]]]; auto.
    now apply complaint_exists_in.
Qed.

Lemma consistent_update_identity_locker db uid target set db' :
  consistent db -> update_identity_locker db uid target set = Ok db' -> consistent db'.
Proof.
  intros Hdb H. apply update_identity_locker_inv in H.
  destruct H as [->|(OLD & Hf & _ & Huniq & Href & ->)]; [assumption|].
  destruct Hdb as [Hpk Hlpk Hfk Hlog Hru Hrc].
  apply (find_key IdentityLocker.complaint_id N.eqb N.eqb_spec) in Hf.
  destruct Hf as [HO EO].
  assert (Hsame : forall a, In a (identity_lockers db) ->
                            IdentityLocker.complaint_id a = target -> a = OLD).
  { intros a Ha Ea. apply (key_unique IdentityLocker.complaint_id (identity_lockers db));
      congruence. }
  constructor; simpl; auto.
  - apply (NoDup_map_rekey IdentityLocker.complaint_id N.eqb N.eqb_spec); [assumption|].
    intros a Ha Ea. rewrite (Hsame a Ha Ea).
    destruct Huniq as [E|E]; [left; congruence | right; now apply locker_exists_not_in].
  - intros l Hl. apply (in_map_rekey IdentityLocker.complaint_id N.eqb N.eqb_spec) in Hl.
    destruct Hl as [[Hl _]|(a & Ha & Ea & ->)]; [auto|].
    rewrite (Hsame a Ha Ea). destruct Href as [E|E].
    + rewrite E. auto.
    + now apply complaint_exists_in.
Qed.

Lemma consistent_delete_identity_locker db uid target :
  consistent db -> consistent (delete_identity_locker db uid target).
Proof.
  intros [Hpk Hlpk Hfk Hlog Hru Hrc]. constructor; simpl; auto.
  - now apply distinct_keys_after_delete.
  - intros l Hl. apply filter_In in Hl. apply Hfk. tauto.
Qed.

Lemma consistent_insert_user_role db uid r db' :
  consistent db -> insert_user_role db uid r = Ok db' -> consistent db'.
Proof.
  intros [Hpk Hlpk Hfk Hlog Hru Hrc] H. apply insert_user_role_inv in H.
  destruct H as (_ & Hno & ->). constructor; simpl; auto.
  rewrite map_app. simpl. apply NoDup_snoc; [assumption|].
  intros Hin. apply has_role_key in Hin. congruence.
Qed.

Lemma consistent_update_user_role db uid u r set db' :
  consistent db -> update_user_role db uid u r set = Ok db' -> consistent db'.
Proof.
  intros Hdb H. apply update_user_role_inv in H.
  destruct H as [->|(OLD & Hf & Huniq & ->)]; [assumption|].
  destruct Hdb as [Hpk Hlpk Hfk Hlog Hru Hrc]. constructor; simpl; auto.
  apply (find_key role_key role_key_eqb role_key_eqb_spec) in Hf. destruct Hf as [HO EO].
  apply (NoDup_map_rekey role_key role_key_eqb role_key_eqb_spec); [assumption|].
  intros a Ha Ea.
  rewrite (key_unique role_key (user_roles db) a OLD Hru Ha HO) by congruence.
  destruct Huniq as [E|E]; [left; congruence|]. right.
  intros Hin. apply has_role_key in Hin. congruence.
Qed.

Lemma consistent_delete_user_role db uid u r :
  consistent db -> consistent (delete_user_role db uid u r).
Proof.
  intros [Hpk Hlpk Hfk Hlog Hru Hrc]. constructor; simpl; auto.
  now apply distinct_keys_after_delete.
Qed.

Lemma consistent_exec db uid s db' :
  consistent db -> exec db uid s = Ok db' -> consistent db'.
Proof.
  intros Hdb H. destruct s; simpl in H;
    try (inversion H; subst; assumption); try discriminate.
  - eapply consistent_insert_complaint; eassumption.
  - eapply consistent_update_complaint; eassumption.
  - eapply consistent_insert_identity_locker; eassumption.
  - eapply consistent_update_identity_locker; eassumption.
  - inversion H; subst. now apply consistent_delete_identity_locker.
  - eapply consistent_insert_user_role; eassumption.
  - eapply consistent_update_user_role; eassumption.
  - inversion H; subst. now apply consistent_delete_user_role.
Qed.

Lemma consistent_step db req : consistent db -> consistent (step db req).
Proof.
  intros Hdb. unfold step. destruct (exec db (fst req) (snd req)) eqn:H; [|assumption].
  eapply consistent_exec; eassumption.
Qed.

Lemma reachable_consistent db : reachable db -> consistent db.
Proof.
  induction 1 as [db Hi | db uid s _ IH].
  - now apply consistent_initial.
  - now apply consistent_step.
Qed.

Lemma reachable_run db reqs : reachable db -> reachable (run db reqs).
Proof.
  revert db. induction reqs as [|[uid s] reqs IH]; simpl; intros db H; [assumption|].
  apply IH. now constructor.
Qed.

(** ** Which statements write which relation *)

(** A statement other than an INSERT or UPDATE on [complaints] leaves the
    relation as it is. *)
Lemma exec_complaints_frame db uid s db' :
  exec db uid s = Ok db' ->
  match s with
  | InsertComplaint NEW _ _ => complaints db' = complaints db ++ [NEW]
  | UpdateComplaint target set =>
      complaints db' = complaints db
      \/ complaints db' =
           map (fun c => if Complaint.id c =? target then set c else c) (complaints db)
  | _ => complaints db' = complaints db
  end.
Proof.
  intros H. destruct s; simpl in H; try (inversion H; subst; reflexivity);
    try discriminate.
  - apply insert_complaint_inv in H. tauto.
  - apply update_complaint_inv in H. destruct H as [->|(? & _ & _ & _ & _ & _ & _ & ->)];
      [now left | now right].
  - apply insert_identity_locker_inv in H. destruct H as (_ & _ & _ & ->). reflexivity.
  - apply update_identity_locker_inv in H.
    destruct H as [->|(? & _ & _ & _ & _ & ->)]; reflexivity.
  - apply insert_user_role_inv in H. destruct H as (_ & _ & ->). reflexivity.
  - apply update_user_role_inv in H. destruct H as [->|(? & _ & _ & ->)]; reflexivity.
Qed.

(** The timeline is append-only: the one statement that writes it is the
    INSERT on [complaints], through its trigger. *)
Lemma exec_timeline_frame db uid s db' :
  exec db uid s = Ok db' ->
  match s with
  | InsertComplaint NEW tl_id now =>
      complaint_timeline db' = complaint_timeline db ++ [creation_entry NEW tl_id now]
  | _ => complaint_timeline db' = complaint_timeline db
  end.
Proof.
  intros H. destruct s; simpl in H; try (inversion H; subst; reflexivity);
    try discriminate.
  - apply insert_complaint_inv in H. tauto.
  - apply update_complaint_inv in H. destruct H as [->|(? & _ & _ & _ & _ & _ & _ & ->)];
      reflexivity.
  - apply insert_identity_locker_inv in H. destruct H as (_ & _ & _ & ->). reflexivity.
  - apply update_identity_locker_inv in H.
    destruct H as [->|(? & _ & _ & _ & _ & ->)]; reflexivity.
  - apply insert_user_role_inv in H. destruct H as (_ & _ & ->). reflexivity.
  - apply update_user_role_inv in H. destruct H as [->|(? & _ & _ & ->)]; reflexivity.
Qed.

Lemma step_timeline_incl db req e :
  In e (complaint_timeline db) -> In e (complaint_timeline (step db req)).
Proof.
  intros He. unfold step. destruct req as [uid s]. simpl.
  destruct (exec db uid s) as [db'|] eqn:H; [|assumption].
  apply exec_timeline_frame in H. destruct s; try (rewrite H; assumption).
  rewrite H. apply in_or_app. now left.
Qed.

Lemma run_timeline_incl db reqs e :
  In e (complaint_timeline db) -> In e (complaint_timeline (run db reqs)).
Proof.
  revert db. induction reqs as [|req reqs IH]; simpl; intros db He; [assumption|].
  apply IH. now apply step_timeline_incl.
Qed.

Lemma filter_all {A} (p : A -> bool) (l : list A) :
  (forall a, In a l -> p a = true) -> filter p l = l.
Proof.
  induction l as [|x l IH]; simpl; intros H; [reflexivity|].
  rewrite (H x (or_introl eq_refl)). f_equal. apply IH. auto.
Qed.

Lemma step_lockers_frame db uid s :
  writes_lockers db uid s = false ->
  identity_lockers (step db (uid, s)) = identity_lockers db.
Proof.
  intros Hw. unfold step. simpl. destruct (exec db uid s) as [db'|] eqn:H; [|reflexivity].
  destruct s; simpl in H, Hw; try (inversion H; subst; reflexivity); try discriminate.
  - apply insert_complaint_inv in H. destruct H as (_ & _ & _ & _ & _ & _ & _ & _ & ->).
    rewrite Hw. simpl. apply app_nil_r.
  - apply update_complaint_inv in H. destruct H as [->|(? & _ & _ & _ & _ & _ & _ & ->)];
      reflexivity.
  - apply insert_identity_locker_inv in H. destruct H as (Ha & _). congruence.
  - apply update_identity_locker_inv in H.
    destruct H as [->|(? & _ & Ha & _)]; [reflexivity | congruence].
  - inversion H; subst. simpl. apply filter_all. intros l _.
    unfold identity_lockers_policy. rewrite Hw. now rewrite andb_false_r.
  - apply insert_user_role_inv in H. destruct H as (_ & _ & ->). reflexivity.
  - apply update_user_role_inv in H. destruct H as [->|(? & _ & _ & ->)]; reflexivity.
Qed.

(** ** The active-complaint cap *)

Lemma campus_initial : initial campus.
Proof.
  unfold initial, campus; simpl. repeat split.
  repeat (constructor; [simpl; intuition discriminate|]). constructor.
Qed.

Lemma insert_over_cap db uid NEW tl_id now :
  (3 <= active_count db (Complaint.student_id NEW))%nat ->
  insert_complaint db uid NEW tl_id now = Error (raise_exception limit_message).
Proof.
  intros H. unfold insert_complaint, check_active_complaint_limit.
  apply Nat.leb_le in H. now rewrite H.
Qed.

Lemma active_count_snoc db db' NEW sid :
  complaints db' = complaints db ++ [NEW] ->
  active_count db' sid =
  Nat.add (active_count db sid)
          (Nat.b2n ((Complaint.student_id NEW =? sid) && is_active NEW)).
Proof.
  intros E. unfold active_count. rewrite E, filter_app, length_app. simpl.
  now destruct ((Complaint.student_id NEW =? sid) && is_active NEW).
Qed.

Lemma insert_below_cap db uid NEW tl_id now :
  (active_count db (Complaint.student_id NEW) < 3)%nat ->
  uid = Complaint.student_id NEW ->
  rating_check NEW = true ->
  complaint_exists db (Complaint.id NEW) = false ->
  timeline_id_exists db tl_id = false ->
  profile_exists db uid = true ->
  profile_ref_ok db (Complaint.staff_assigned NEW) = true ->
  exists db', insert_complaint db uid NEW tl_id now = Ok db'
              /\ (active_count db' uid <= 3)%nat.
Proof.
  intros Hc Hu Hr Hid Htl Hp Hs. subst uid.
  assert (Hex : complaint_exists (set_complaints db (complaints db ++ [NEW]))
                                 (Complaint.id NEW) = true).
  { apply complaint_exists_in. simpl. rewrite map_app. apply in_or_app. right. now left. }
  assert (H1 : exists db1,
             on_anonymous_complaint (set_complaints db (complaints db ++ [NEW])) NEW = Ok db1
             /\ profiles db1 = profiles db
             /\ complaints db1 = complaints db ++ [NEW]
             /\ complaint_timeline db1 = complaint_timeline db).
  { unfold on_anonymous_complaint, create_identity_locker.
    destruct (Complaint.is_anonymous NEW); [|eexists; split; [reflexivity | auto]].
    destruct (locker_exists _ _); [eexists; split; [reflexivity | auto]|].
    rewrite Hex. unfold profile_exists in *. simpl. rewrite Hp. simpl.
    eexists; split; [reflexivity | auto]. }
  destruct H1 as (db1 & H1 & Ep & Ec & Et).
  assert (H : insert_complaint db (Complaint.student_id NEW) NEW tl_id now
              = Ok (set_complaint_timeline db1
                      (complaint_timeline db1 ++ [creation_entry NEW tl_id now]))).
  { unfold insert_complaint, check_active_complaint_limit.
    apply Nat.leb_gt in Hc. rewrite Hc. simpl.
    unfold complaints_insert_check, own_complaint. rewrite N.eqb_refl, Hr, Hid, Hp, Hs.
    simpl. rewrite H1. simpl. unfold add_complaint_timeline, insert_timeline_row.
    unfold timeline_id_exists, complaint_exists, profile_ref_ok, profile_exists in *.
    simpl. rewrite Et, Htl, Ec, Ep. simpl in Hex. rewrite Hex, Hp. reflexivity. }
  eexists. split; [exact H|].
  rewrite (active_count_snoc db _ NEW) by (simpl; exact Ec).
  destruct (_ && _); simpl; lia.
Qed.

Lemma filter_map_le {A} (p : A -> bool) (f : A -> A) (l : list A) :
  (forall a, In a l -> p (f a) = true -> p a = true) ->
  (List.length (filter p (map f l)) <= List.length (filter p l))%nat.
Proof.
  induction l as [|x l IH]; simpl; intros H; [lia|].
  assert (IH' := IH (fun a Ha => H a (or_intror Ha))).
  destruct (p (f x)) eqn:E.
  - rewrite (H x (or_introl eq_refl) E). simpl. lia.
  - destruct (p x); simpl; lia.
Qed.

Lemma capped_step db req : capped db -> no_reactivation db req -> capped (step db req).
Proof.
  intros Hcap Hq sid. destruct req as [uid s]. unfold step. simpl.
  destruct (exec db uid s) as [db'|] eqn:H; [|apply Hcap].
  assert (Hf := exec_complaints_frame _ _ _ _ H).
  destruct s; try (unfold active_count; rewrite Hf; apply Hcap).
  - rewrite (active_count_snoc db db' NEW sid Hf).
    simpl in H. apply insert_complaint_inv in H. destruct H as (Hlt & _).
    specialize (Hcap sid).
    destruct (N.eqb_spec (Complaint.student_id NEW) sid) as [E|E]; simpl; [|lia].
    rewrite E in Hlt. destruct (is_active NEW); simpl; lia.
  - destruct Hf as [Hf|Hf]; unfold active_count; rewrite Hf; [apply Hcap|].
    etransitivity; [|apply (Hcap sid)]. apply filter_map_le.
    intros c Hc. destruct (N.eqb_spec (Complaint.id c) target) as [E|E]; [|auto].
    destruct (Hq c Hc E) as [Es Ha]. rewrite Es. intros Hp.
    apply andb_true_iff in Hp. destruct Hp as [-> Hp]. simpl. auto.
Qed.

Lemma capped_run db reqs : capped db -> quiet db reqs -> capped (run db reqs).
Proof.
  revert db. induction reqs as [|req reqs IH]; simpl; intros db Hcap Hq; [assumption|].
  destruct Hq as [Hq Hqs]. apply IH; [|assumption]. now apply capped_step.
Qed.

Lemma capped_initial db : initial db -> capped db.
Proof. intros (Hc & _) sid. unfold active_count. rewrite Hc. simpl. lia. Qed.

(** X21.  The check of the INSERT, and the cap it keeps when statements
    execute one at a time.  An INSERT into [complaints] raises "You cannot
    have more than 3 active complaints at a time" whenever the row's submitter
    holds 3 or more active complaints (status not resolved, not withdrawn) in
    the state the trigger counts in, whoever the caller is; below that count
    an otherwise valid insert by the submitter succeeds and leaves the
    submitter with at most 3 active complaints.  Along every run of
    statements executed one after another from a freshly migrated database,
    whose complaint updates keep the submitter and do not make an inactive
    complaint active again, every submitter holds at most 3 active complaints
    at every state. *)
Theorem serial_inserts_keep_the_cap :
  (forall db uid NEW tl_id now,
      (3 <= active_count db (Complaint.student_id NEW))%nat ->
      insert_complaint db uid NEW tl_id now = Error (raise_exception limit_message))
  /\ (forall db uid NEW tl_id now,
      (active_count db (Complaint.student_id NEW) < 3)%nat ->
      uid = Complaint.student_id NEW ->
      rating_check NEW = true ->
      complaint_exists db (Complaint.id NEW) = false ->
      timeline_id_exists db tl_id = false ->
      profile_exists db uid = true ->
      profile_ref_ok db (Complaint.staff_assigned NEW) = true ->
      exists db', insert_complaint db uid NEW tl_id now = Ok db'
                  /\ (active_count db' uid <= 3)%nat)
  /\ (forall db reqs, initial db -> quiet db reqs -> capped (run db reqs)).
Proof.
  split; [|split].
  - exact insert_over_cap.
  - exact insert_below_cap.
  - intros db reqs Hi Hq. apply capped_run; [|assumption]. now apply capped_initial.
Qed.

(** Asha's first three complaints are accepted and the fourth is refused. *)
Lemma serial_inserts_keep_the_cap_witness :
  (exists db', insert_complaint campus asha (tap 100 false) 200 0%Z = Ok db'
               /\ (active_count db' asha <= 3)%nat)
  /\ capped (run campus three_submits)
  /\ insert_complaint (run campus three_submits) asha (tap 103 false) 203 0%Z
     = Error (raise_exception limit_message).
Proof.
  destruct serial_inserts_keep_the_cap as (Hover & Hbelow & Hrun). split; [|split].
  - apply Hbelow; vm_compute; (reflexivity || lia).
  - apply Hrun; [exact campus_initial | vm_compute; tauto].
  - apply Hover. vm_compute. lia.
Defined.

(** C1.  The cap of 3 active complaints is not an invariant of the code.
    The trigger [enforce_complaint_limit] counts BEFORE INSERT only; nothing
    counts on UPDATE, and the policy "Students can update their own
    complaints" lets the owner clear [withdrawn_at].  In [cap_bypass], a run
    of Asha's own statements from the freshly migrated [campus], every
    statement goes through: with three active complaints a fourth insert is
    refused with the trigger's message, after withdrawing one it is accepted,
    and clearing the withdrawal then leaves Asha with four active
    complaints. *)
Theorem cap_is_passed_by_clearing_a_withdrawal :
  initial campus
  /\ active_count (run campus three_submits) asha = 3%nat
  /\ insert_complaint (run campus three_submits) asha (tap 103 false) 203 6%Z
     = Error (raise_exception limit_message)
  /\ active_count (run campus (firstn 4 cap_bypass)) asha = 2%nat
  /\ succeeded (insert_complaint (run campus (firstn 4 cap_bypass)) asha (tap 103 false)
                                 203 6%Z) = true
  /\ active_count (run campus (firstn 5 cap_bypass)) asha = 3%nat
  /\ succeeded (update_complaint (run campus (firstn 5 cap_bypass)) asha 100
                                 (set_withdrawn None None)) = true
  /\ active_count (run campus cap_bypass) asha = 4%nat.
Proof. split; [exact campus_initial | vm_compute; repeat split]. Qed.

(** ** The creation entry of the audit trail *)

(** C2.  In every reachable state each complaint has a timeline entry
    "Complaint submitted" of its own; the entry is written by the very
    statement that inserts the complaint, and a statement that raises leaves
    neither behind. *)
Theorem complaint_creation_is_logged :
  (forall db, reachable db ->
     forall c, In c (complaints db) ->
       exists e, In e (complaint_timeline db)
                 /\ TimelineEntry.complaint_id e = Complaint.id c
                 /\ TimelineEntry.message e = "Complaint submitted")
  /\ (forall db uid NEW tl_id now db',
        insert_complaint db uid NEW tl_id now = Ok db' ->
        step db (uid, InsertComplaint NEW tl_id now) = db'
        /\ In NEW (complaints db')
        /\ In (creation_entry NEW tl_id now) (complaint_timeline db'))
  /\ (forall db uid NEW tl_id now e,
        insert_complaint db uid NEW tl_id now = Error e ->
        step db (uid, InsertComplaint NEW tl_id now) = db).
Proof.
  split; [|split].
  - intros db Hr. apply reachable_consistent in Hr. exact (creation_logged db Hr).
  - intros db uid NEW tl_id now db' H. split.
    + unfold step. simpl. now rewrite H.
    + apply insert_complaint_inv in H.
      destruct H as (_ & _ & _ & _ & _ & _ & -> & -> & _).
      split; apply in_or_app; right; now left.
  - intros db uid NEW tl_id now e H. unfold step. simpl. now rewrite H.
Qed.

Lemma complaint_creation_is_logged_witness :
  exists e, In e (complaint_timeline (run campus anonymous_assigned))
            /\ TimelineEntry.complaint_id e = 100
            /\ TimelineEntry.message e = "Complaint submitted".
Proof.
  apply (proj1 complaint_creation_is_logged (run campus anonymous_assigned)
           (reachable_run _ _ (reachable_initial _ campus_initial))
           (set_staff_assigned (Some meera) (tap 100 true))).
  vm_compute. now left.
Defined.

(** ** Reading complaints *)

Lemma filter_none {A} (p : A -> bool) (l : list A) :
  (forall a, In a l -> p a = false) -> filter p l = [].
Proof.
  induction l as [|x l IH]; simpl; intros H; [reflexivity|].
  rewrite (H x (or_introl eq_refl)). apply IH. auto.
Qed.

Lemma read_complaint_In db uid cid c :
  In c (read_complaint db uid cid)
  <-> In c (complaints db) /\ complaints_select_policy db uid c = true
      /\ Complaint.id c = cid.
Proof.
  unfold read_complaint, select_complaints. rewrite !filter_In, N.eqb_eq. tauto.
Qed.

Lemma read_absent db uid cid :
  complaint_exists db cid = false -> read_complaint db uid cid = [].
Proof.
  intros H. apply complaint_exists_not_in in H. apply filter_none. intros c Hc.
  apply filter_In in Hc. destruct Hc as [Hc _]. apply N.eqb_neq. intros E.
  apply H. rewrite <- E. now apply in_map.
Qed.

Lemma read_filtered db uid c :
  NoDup (map Complaint.id (complaints db)) -> In c (complaints db) ->
  complaints_select_policy db uid c = false ->
  read_complaint db uid (Complaint.id c) = [].
Proof.
  intros Hpk Hc Hp. apply filter_none. intros c' Hc'. apply filter_In in Hc'.
  destruct Hc' as [Hc' Hp']. apply N.eqb_neq. intros E.
  rewrite (key_unique Complaint.id (complaints db) c' c Hpk Hc' Hc E) in Hp'. congruence.
Qed.

(** C6.  A complaint the caller has no read right to (the caller is not its
    submitter, not staff assigned to it, not an admin) is filtered out of the
    caller's SELECT: reading it by identifier yields the empty result, the
    same response as for an identifier no complaint has, and no error.  A
    student who does not own the complaint is such a caller. *)
Theorem unreadable_complaint_is_not_found db uid c absent :
  reachable db ->
  In c (complaints db) ->
  complaints_select_policy db uid c = false ->
  complaint_exists db absent = false ->
  read_complaint db uid (Complaint.id c) = read_complaint db uid absent
  /\ read_complaint db uid (Complaint.id c) = []
  /\ (forall c', In c' (complaints db) ->
        uid <> Complaint.student_id c' ->
        has_role db uid staff = false -> has_role db uid admin = false ->
        complaints_select_policy db uid c' = false).
Proof.
  intros Hr Hc Hp Ha. apply reachable_consistent in Hr.
  rewrite (read_absent db uid absent Ha).
  rewrite (read_filtered db uid c (complaints_pkey db Hr) Hc Hp).
  repeat split. intros c' _ Hu Hs Hadm.
  unfold complaints_select_policy, own_complaint, staff_assigned_complaint,
    admin_any_complaint. rewrite Hs, Hadm. simpl.
  rewrite !orb_false_r. now apply N.eqb_neq.
Qed.

(** Ravi, a student, reads Asha's complaint 100 and the unused identifier
    999. *)
Lemma unreadable_complaint_is_not_found_witness :
  read_complaint (run campus anonymous_assigned) ravi 100
  = read_complaint (run campus anonymous_assigned) ravi 999
  /\ read_complaint (run campus anonymous_assigned) ravi 100 = [].
Proof.
  destruct (unreadable_complaint_is_not_found (run campus anonymous_assigned) ravi
              (set_staff_assigned (Some meera) (tap 100 true)) 999) as (H1 & H2 & _).
  - exact (reachable_run _ _ (reachable_initial _ campus_initial)).
  - vm_compute. now left.
  - vm_compute. reflexivity.
  - vm_compute. reflexivity.
  - split; [exact H1 | exact H2].
Defined.

(** C3: the code at the failing input.  Asha files complaint 100 with the
    anonymity flag set and the dean assigns it to Meera.  No reveal has taken
    place and Meera, who is staff and not an admin, sees no locker; her read
    of the complaint returns the row with Asha's identifier in [student_id]. *)
Theorem assigned_staff_reads_anonymous_submitter :
  map Complaint.is_anonymous (complaints (run campus anonymous_assigned)) = [true]
  /\ map IdentityLocker.reveal_status (identity_lockers (run campus anonymous_assigned))
     = ["not_revealed"]
  /\ has_role (run campus anonymous_assigned) meera admin = false
  /\ select_identity_lockers (run campus anonymous_assigned) meera = []
  /\ map Complaint.student_id (read_complaint (run campus anonymous_assigned) meera 100)
     = [asha].
Proof. vm_compute. repeat split. Qed.

(** ** Identity lockers *)

Lemma no_locker_without_complaint db cid :
  consistent db -> complaint_exists db cid = false -> locker_exists db cid = false.
Proof.
  intros Hdb Hn. apply complaint_exists_not_in in Hn. apply locker_exists_not_in.
  intros Hin. apply in_map_iff in Hin. destruct Hin as (l & E & Hl).
  apply Hn. rewrite <- E. now apply (lockers_fkey db Hdb).
Qed.

Lemma insert_complaint_lockers db uid NEW tl_id now db' :
  consistent db -> insert_complaint db uid NEW tl_id now = Ok db' ->
  locker_exists db (Complaint.id NEW) = false
  /\ identity_lockers db' =
     identity_lockers db ++ (if Complaint.is_anonymous NEW then [fresh_locker NEW] else []).
Proof.
  intros Hdb H. apply insert_complaint_inv in H.
  destruct H as (_ & _ & _ & Hnew & _ & _ & _ & _ & El).
  assert (Hno := no_locker_without_complaint db _ Hdb Hnew).
  rewrite Hno, andb_true_r in El. auto.
Qed.

(** C4 (as amended).  In a reachable state, the statement that inserts a
    complaint leaves exactly one identity locker for it when its anonymity
    flag is true, the one the trigger writes, and none when the flag is false,
    and touches no locker of another complaint.  Apart from the insert of an
    anonymous complaint, the only statements that change [identity_lockers]
    are an admin's statements on that relation. *)
Theorem locker_created_with_anonymous_complaint :
  (forall db uid NEW tl_id now db',
      reachable db ->
      insert_complaint db uid NEW tl_id now = Ok db' ->
      locker_exists db' (Complaint.id NEW) = Complaint.is_anonymous NEW
      /\ locker_count db' (Complaint.id NEW) = Nat.b2n (Complaint.is_anonymous NEW)
      /\ (forall l, In l (identity_lockers db') ->
            IdentityLocker.complaint_id l = Complaint.id NEW -> l = fresh_locker NEW)
      /\ (forall l, IdentityLocker.complaint_id l <> Complaint.id NEW ->
            (In l (identity_lockers db') <-> In l (identity_lockers db))))
  /\ (forall db uid s,
        writes_lockers db uid s = false ->
        identity_lockers (step db (uid, s)) = identity_lockers db).
Proof.
  split; [|exact step_lockers_frame].
  intros db uid NEW tl_id now db' Hr H. apply reachable_consistent in Hr.
  destruct (insert_complaint_lockers _ _ _ _ _ _ Hr H) as [Hno El].
  assert (Hnone : forall l, In l (identity_lockers db) ->
                    IdentityLocker.complaint_id l <> Complaint.id NEW).
  { intros l Hl E. apply locker_exists_not_in in Hno. apply Hno. rewrite <- E.
    now apply in_map. }
  split; [|split; [|split]].
  - unfold locker_exists in *. rewrite El, existsb_app, Hno.
    destruct (Complaint.is_anonymous NEW); simpl; [|reflexivity].
    now rewrite N.eqb_refl.
  - unfold locker_count. rewrite El, filter_app, length_app.
    rewrite filter_none by (intros l Hl; apply N.eqb_neq; auto).
    destruct (Complaint.is_anonymous NEW); simpl; [|reflexivity].
    now rewrite N.eqb_refl.
  - intros l Hl E. rewrite El in Hl. apply in_app_or in Hl. destruct Hl as [Hl|Hl].
    + exfalso. exact (Hnone l Hl E).
    + destruct (Complaint.is_anonymous NEW); simpl in Hl; [|contradiction].
      destruct Hl as [<-|[]]. reflexivity.
  - intros l Hne. rewrite El. split; intros Hl.
    + apply in_app_or in Hl. destruct Hl as [Hl|Hl]; [assumption|].
      destruct (Complaint.is_anonymous NEW); simpl in Hl; [|contradiction].
      destruct Hl as [<-|[]]. simpl in Hne. contradiction.
    + apply in_or_app. now left.
Qed.

(** Asha's anonymous complaint gets its locker; her named one gets none. *)
Lemma locker_created_with_anonymous_complaint_witness :
  locker_count (step campus (asha, InsertComplaint (tap 100 true) 200 0%Z)) 100 = 1%nat
  /\ locker_count (step campus (asha, InsertComplaint (tap 101 false) 201 0%Z)) 101 = 0%nat.
Proof.
  split.
  - apply (proj1 locker_created_with_anonymous_complaint
             campus asha (tap 100 true) 200 0%Z).
    + exact (reachable_initial _ campus_initial).
    + vm_compute. reflexivity.
  - apply (proj1 locker_created_with_anonymous_complaint
             campus asha (tap 101 false) 201 0%Z).
    + exact (reachable_initial _ campus_initial).
    + vm_compute. reflexivity.
Defined.

(** C4, as stated, fails: after [locker_for_named] the store holds a locker
    for complaint 100, whose anonymity flag is false. *)
Lemma locker_created_with_anonymous_complaint_counterexample :
  initial campus
  /\ map Complaint.is_anonymous (complaints (run campus locker_for_named)) = [false]
  /\ locker_count (run campus locker_for_named) 100 = 1%nat
  /\ lockers_match_flags (run campus locker_for_named) = false.
Proof. split; [exact campus_initial | vm_compute; repeat split]. Qed.

(** ** The reveal status *)

Lemma opt_uuid_eqb_refl x : opt_uuid_eqb x x = true.
Proof. destruct x; simpl; [apply N.eqb_refl | reflexivity]. Qed.

Lemma find_key_some {A} (key : A -> uuid) (l : list A) (a : A) :
  In a l -> exists a', find (fun x => key x =? key a) l = Some a' /\ key a' = key a.
Proof.
  intros Ha. destruct (find (fun x => key x =? key a) l) as [a'|] eqn:Hf.
  - exists a'. split; [reflexivity|].
    now apply (find_key key N.eqb N.eqb_spec) in Hf.
  - exfalso. apply (find_key_none key N.eqb N.eqb_spec) in Hf. apply Hf. now apply in_map.
Qed.

Lemma update_identity_locker_denied db uid target set :
  has_role db uid admin = false -> update_identity_locker db uid target set = Ok db.
Proof.
  intros Ha. unfold update_identity_locker, identity_lockers_policy.
  destruct (find _ _); [|reflexivity]. now rewrite Ha.
Qed.

(** An admin's update that keeps the key and the submitter of the locker and
    names no new requester goes through, whatever the locker holds. *)
Lemma update_identity_locker_admin db uid OLD set :
  has_role db uid admin = true ->
  In OLD (identity_lockers db) ->
  (forall l, IdentityLocker.complaint_id (set l) = IdentityLocker.complaint_id l
             /\ IdentityLocker.real_student_id (set l) = IdentityLocker.real_student_id l
             /\ IdentityLocker.reveal_requested_by (set l)
                = IdentityLocker.reveal_requested_by l) ->
  update_identity_locker db uid (IdentityLocker.complaint_id OLD) set
  = Ok (set_identity_lockers db
          (map (fun l => if IdentityLocker.complaint_id l =? IdentityLocker.complaint_id OLD
                         then set l else l)
               (identity_lockers db))).
Proof.
  intros Ha HO Hset. unfold update_identity_locker, identity_lockers_policy.
  destruct (find_key_some IdentityLocker.complaint_id _ _ HO) as (a & -> & _).
  rewrite Ha. cbv zeta. destruct (Hset a) as (-> & -> & ->).
  now rewrite !N.eqb_refl, opt_uuid_eqb_refl.
Qed.

(** C5 (as amended).  The trigger creates a locker with reveal status
    [not_revealed].  An update of a locker by a caller without the admin role
    changes nothing and raises nothing.  For an admin the store enforces no
    order on the reveal status: an update sets the status of the locker to any
    text whatever its current status, and [reveal] goes through on a locker
    that was never requested. *)
Theorem reveal_status_is_unordered :
  (forall db uid NEW tl_id now db',
      reachable db ->
      insert_complaint db uid NEW tl_id now = Ok db' ->
      Complaint.is_anonymous NEW = true ->
      In (fresh_locker NEW) (identity_lockers db')
      /\ forall l, In l (identity_lockers db') ->
           IdentityLocker.complaint_id l = Complaint.id NEW ->
           IdentityLocker.reveal_status l = "not_revealed")
  /\ (forall db uid target set,
        has_role db uid admin = false ->
        update_identity_locker db uid target set = Ok db)
  /\ (forall db uid OLD s,
        has_role db uid admin = true ->
        In OLD (identity_lockers db) ->
        exists db',
          update_identity_locker db uid (IdentityLocker.complaint_id OLD) (set_reveal_status s)
          = Ok db'
          /\ In (set_reveal_status s OLD) (identity_lockers db')
          /\ forall l, In l (identity_lockers db') ->
               IdentityLocker.complaint_id l = IdentityLocker.complaint_id OLD ->
               IdentityLocker.reveal_status l = s)
  /\ (forall db uid OLD now,
        has_role db uid admin = true ->
        In OLD (identity_lockers db) ->
        exists db',
          reveal db uid (IdentityLocker.complaint_id OLD) now = Ok db'
          /\ In (reveal_assignment now OLD) (identity_lockers db')).
Proof.
  split; [|split; [|split]].
  - intros db uid NEW tl_id now db' Hr H Hanon. apply reachable_consistent in Hr.
    destruct (insert_complaint_lockers _ _ _ _ _ _ Hr H) as [Hno El].
    rewrite Hanon in El. rewrite El. split; [apply in_or_app; right; now left|].
    intros l Hl E. apply in_app_or in Hl. destruct Hl as [Hl|[<-|[]]]; [|reflexivity].
    exfalso. apply locker_exists_not_in in Hno. apply Hno. rewrite <- E.
    now apply in_map.
  - exact update_identity_locker_denied.
  - intros db uid OLD s Ha HO. eexists. split; [|split].
    + apply update_identity_locker_admin; [assumption | assumption |]. intros l. auto.
    + simpl.
      apply (in_map_rekey_target IdentityLocker.complaint_id N.eqb N.eqb_spec
               _ _ (set_reveal_status s)); auto.
    + simpl. intros l Hl E.
      apply (in_map_rekey IdentityLocker.complaint_id N.eqb N.eqb_spec) in Hl.
      destruct Hl as [[_ Hne]|(a & _ & _ & ->)]; [contradiction | reflexivity].
  - intros db uid OLD now Ha HO. eexists. split.
    + unfold reveal. apply update_identity_locker_admin; [assumption | assumption |].
      intros l. auto.
    + simpl.
      apply (in_map_rekey_target IdentityLocker.complaint_id N.eqb N.eqb_spec
               _ _ (reveal_assignment now)); auto.
Qed.

(** The dean sets the fresh locker of Asha's anonymous complaint to
    [revealed]; Meera's attempt changes nothing. *)
Lemma reveal_status_is_unordered_witness :
  (exists db',
      update_identity_locker (run campus [(asha, InsertComplaint (tap 100 true) 200 0%Z)])
        dean 100 (set_reveal_status "revealed") = Ok db'
      /\ In (set_reveal_status "revealed" (fresh_locker (tap 100 true)))
            (identity_lockers db')
      /\ forall l, In l (identity_lockers db') ->
           IdentityLocker.complaint_id l = 100 ->
           IdentityLocker.reveal_status l = "revealed")
  /\ update_identity_locker (run campus [(asha, InsertComplaint (tap 100 true) 200 0%Z)])
       meera 100 (set_reveal_status "revealed")
     = Ok (run campus [(asha, InsertComplaint (tap 100 true) 200 0%Z)]).
Proof.
  destruct reveal_status_is_unordered as (_ & Hdenied & Hadmin & _). split.
  - apply (Hadmin (run campus [(asha, InsertComplaint (tap 100 true) 200 0%Z)]) dean
             (fresh_locker (tap 100 true)) "revealed").
    + vm_compute. reflexivity.
    + vm_compute. now left.
  - apply Hdenied. vm_compute. reflexivity.
Defined.

(** C5, as stated, fails: the dean's [reveal] on a locker whose status is
    [not_revealed] goes through and the locker reads [revealed]; a further
    update takes it back to [not_revealed]. *)
Lemma reveal_status_is_unordered_counterexample :
  map IdentityLocker.reveal_status
      (identity_lockers (run campus [(asha, InsertComplaint (tap 100 true) 200 0%Z)]))
  = ["not_revealed"]
  /\ succeeded (reveal (run campus [(asha, InsertComplaint (tap 100 true) 200 0%Z)])
                       dean 100 9%Z) = true
  /\ map IdentityLocker.reveal_status (identity_lockers (run campus reveal_unrequested))
     = ["revealed"]
  /\ map IdentityLocker.reveal_status (identity_lockers (run campus reveal_undone))
     = ["not_revealed"].
Proof. vm_compute. repeat split. Qed.

(** ** Status updates *)

Lemma find_key_unique {A} (key : A -> uuid) (l : list A) (a : A) :
  NoDup (map key l) -> In a l -> find (fun x => key x =? key a) l = Some a.
Proof.
  intros Hnd Ha. destruct (find_key_some key l a Ha) as (a' & Hf & E).
  rewrite Hf. f_equal. apply (find_key key N.eqb N.eqb_spec) in Hf.
  apply (key_unique key l); tauto.
Qed.

Lemma update_complaint_denied db uid c set :
  consistent db -> In c (complaints db) ->
  complaints_update_using db uid c = false ->
  update_complaint db uid (Complaint.id c) set = Ok db.
Proof.
  intros Hdb Hc Hu. unfold update_complaint.
  rewrite (find_key_unique Complaint.id _ c (complaints_pkey db Hdb) Hc).
  now rewrite Hu.
Qed.

Lemma update_complaint_status db uid c s :
  consistent db -> In c (complaints db) ->
  complaints_update_using db uid c = true ->
  update_complaint db uid (Complaint.id c) (set_status s)
  = Ok (set_complaints db
          (map (fun c' => if Complaint.id c' =? Complaint.id c then set_status s c' else c')
               (complaints db))).
Proof.
  intros Hdb Hc Hu. unfold update_complaint.
  rewrite (find_key_unique Complaint.id _ c (complaints_pkey db Hdb) Hc).
  rewrite Hu. cbv zeta.
  change (complaints_update_check db uid (set_status s c))
    with (complaints_update_using db uid c).
  change (rating_check (set_status s c)) with (rating_check c).
  rewrite Hu, (ratings_checked db Hdb c Hc). simpl.
  now rewrite !N.eqb_refl, opt_uuid_eqb_refl.
Qed.

(** C7 (as amended).  An UPDATE of a complaint is applied for its submitter,
    for the staff member assigned to it and for an admin, and for nobody else:
    any other caller's update changes nothing and raises nothing.  The store
    restricts no transition: such a caller's [SET status = s] is applied for
    every [s] of submitted, in_progress and resolved, whatever the current
    status, so resolved is not terminal and no update is rejected as an
    invalid transition. *)
Theorem status_update_is_unrestricted :
  (forall db uid c s,
      reachable db -> In c (complaints db) ->
      complaints_update_using db uid c = true ->
      exists db',
        update_complaint db uid (Complaint.id c) (set_status s) = Ok db'
        /\ In (set_status s c) (complaints db')
        /\ forall c', In c' (complaints db') -> Complaint.id c' = Complaint.id c ->
             Complaint.status c' = s)
  /\ (forall db uid c set,
        reachable db -> In c (complaints db) ->
        complaints_update_using db uid c = false ->
        update_complaint db uid (Complaint.id c) set = Ok db).
Proof.
  split.
  - intros db uid c s Hr Hc Hu. apply reachable_consistent in Hr.
    eexists. split; [now apply update_complaint_status|]. simpl. split.
    + apply (in_map_rekey_target Complaint.id N.eqb N.eqb_spec _ _ (set_status s));
        auto.
    + intros c' Hc' E.
      apply (in_map_rekey Complaint.id N.eqb N.eqb_spec) in Hc'.
      destruct Hc' as [[_ Hne]|(a & _ & _ & ->)]; [contradiction | reflexivity].
  - intros db uid c set Hr Hc Hu. apply reachable_consistent in Hr.
    now apply update_complaint_denied.
Qed.

(** Asha sets her resolved complaint back to submitted; Ravi's update of it
    changes nothing. *)
Lemma status_update_is_unrestricted_witness :
  (exists db',
      update_complaint (run campus resolve_complaint) asha 100 (set_status submitted) = Ok db'
      /\ In (set_status submitted (set_status resolved (tap 100 false))) (complaints db')
      /\ forall c', In c' (complaints db') -> Complaint.id c' = 100 ->
           Complaint.status c' = submitted)
  /\ update_complaint (run campus resolve_complaint) ravi 100 (set_status in_progress)
     = Ok (run campus resolve_complaint).
Proof.
  destruct status_update_is_unrestricted as [Happlied Hdenied]. split.
  - apply (Happlied (run campus resolve_complaint) asha
             (set_status resolved (tap 100 false)) submitted).
    + exact (reachable_run _ _ (reachable_initial _ campus_initial)).
    + vm_compute. now left.
    + vm_compute. reflexivity.
  - apply (Hdenied (run campus resolve_complaint) ravi
             (set_status resolved (tap 100 false)) (set_status in_progress)).
    + exact (reachable_run _ _ (reachable_initial _ campus_initial)).
    + vm_compute. now left.
    + vm_compute. reflexivity.
Defined.

(** C7, as stated, fails: complaint 100 is resolved, Asha's update to
    submitted goes through, and the complaint reads submitted again. *)
Lemma status_update_is_unrestricted_counterexample :
  map Complaint.status (complaints (run campus resolve_complaint)) = [resolved]
  /\ succeeded (update_complaint (run campus resolve_complaint) asha 100
                                 (set_status submitted)) = true
  /\ map Complaint.status (complaints (run campus reopen_resolved)) = [submitted].
Proof. vm_compute. repeat split. Qed.

(** ** Vaulting twice *)

(** C8.  [create_identity_locker] is idempotent: called for a complaint that
    already has a locker it returns without error and leaves the database,
    and so the existing locker, as it is; in particular a second call after a
    successful first one is a no-op. *)
Theorem create_identity_locker_idempotent :
  (forall db NEW,
      locker_exists db (Complaint.id NEW) = true ->
      create_identity_locker db NEW = Ok db)
  /\ (forall db NEW db',
        create_identity_locker db NEW = Ok db' ->
        create_identity_locker db' NEW = Ok db').
Proof.
  assert (Hfirst : forall db NEW, locker_exists db (Complaint.id NEW) = true ->
                                  create_identity_locker db NEW = Ok db).
  { intros db NEW H. unfold create_identity_locker. rewrite H.
    now destruct (Complaint.is_anonymous NEW). }
  split; [exact Hfirst|].
  intros db NEW db' H. destruct (Complaint.is_anonymous NEW) eqn:Hanon.
  - apply Hfirst. apply create_identity_locker_inv in H.
    destruct H as (_ & _ & _ & _ & El). unfold locker_exists in *.
    rewrite El, existsb_app, Hanon.
    destruct (existsb _ (identity_lockers db)); simpl; [reflexivity|].
    now rewrite N.eqb_refl.
  - unfold create_identity_locker. now rewrite Hanon.
Qed.

(** The trigger function run again on Asha's anonymous complaint. *)
Lemma create_identity_locker_idempotent_witness :
  create_identity_locker (run campus anonymous_assigned) (tap 100 true)
  = Ok (run campus anonymous_assigned).
Proof.
  apply (proj1 create_identity_locker_idempotent). vm_compute. reflexivity.
Defined.

(** ** Granting a role twice *)

Lemma count_key_one {A K} (key : A -> K) (eqb : K -> K -> bool)
    (eqb_spec : forall x y, reflect (x = y) (eqb x y)) (l : list A) (k : K) :
  NoDup (map key l) -> In k (map key l) ->
  List.length (filter (fun a => eqb (key a) k) l) = 1%nat.
Proof.
  induction l as [|x l IH]; simpl; [tauto|]. intros Hnd Hin.
  inversion Hnd as [|? ? Hx Hl]; subst.
  destruct (eqb_spec (key x) k) as [E|E].
  - simpl. f_equal. rewrite filter_none; [reflexivity|].
    intros a Ha. destruct (eqb_spec (key a) k) as [E'|E']; [|reflexivity].
    exfalso. apply Hx. rewrite E, <- E'. now apply in_map.
  - destruct Hin as [Hin|Hin]; [contradiction|]. now apply IH.
Qed.




(** ** The creation entry names the submitter *)

Lemma admin_sees_timeline db p e :
  has_role db p admin = true -> In e (complaint_timeline db) -> In e (select_timeline db p).
Proof.
  intros Ha He. apply filter_In. split; [assumption|].
  unfold timeline_select_policy, admin_any_timeline. rewrite Ha. apply orb_true_r.
Qed.

Lemma assigned_staff_sees_timeline db p c e :
  has_role db p staff = true ->
  In c (complaints db) ->
  Complaint.staff_assigned c = Some p ->
  TimelineEntry.complaint_id e = Complaint.id c ->
  In e (complaint_timeline db) -> In e (select_timeline db p).
Proof.
  intros Hs Hc Hm E He. apply filter_In. split; [assumption|].
  unfold timeline_select_policy. apply orb_true_iff. left. apply orb_true_iff. right.
  unfold staff_assigned_timeline. rewrite Hs. simpl.
  apply existsb_exists. exists c. split; [|now apply N.eqb_eq].
  assert (Hn : null_eqb (Complaint.staff_assigned c) p = true).
  { rewrite Hm. simpl. apply N.eqb_refl. }
  apply filter_In. split; [|exact Hn]. apply filter_In. split; [assumption|].
  unfold complaints_select_policy, staff_assigned_complaint. rewrite Hs, Hn. simpl.
  now rewrite orb_true_r.
Qed.

(** C10.  The statement that inserts an anonymous complaint writes a
    timeline entry "Complaint submitted" whose [updated_by] is the complaint's
    real submitter.  The entry stays in the timeline in every later state, and
    there every admin and every staff member assigned to the complaint
    receives it from a SELECT on the timeline, although a caller without the
    admin role sees no identity locker. *)
Theorem creation_entry_exposes_submitter db uid NEW tl_id now db' :
  insert_complaint db uid NEW tl_id now = Ok db' ->
  Complaint.is_anonymous NEW = true ->
  TimelineEntry.updated_by (creation_entry NEW tl_id now) = Some (Complaint.student_id NEW)
  /\ In (creation_entry NEW tl_id now) (complaint_timeline db')
  /\ forall reqs p,
       (has_role (run db' reqs) p admin = true
        \/ (has_role (run db' reqs) p staff = true
            /\ exists c, In c (complaints (run db' reqs))
                         /\ Complaint.id c = Complaint.id NEW
                         /\ Complaint.staff_assigned c = Some p)) ->
       In (creation_entry NEW tl_id now) (select_timeline (run db' reqs) p)
       /\ (has_role (run db' reqs) p admin = false ->
           select_identity_lockers (run db' reqs) p = []).
Proof.
  intros H Hanon. split; [reflexivity|].
  assert (He : In (creation_entry NEW tl_id now) (complaint_timeline db')).
  { apply insert_complaint_inv in H. destruct H as (_ & _ & _ & _ & _ & _ & _ & -> & _).
    apply in_or_app. right. now left. }
  split; [exact He|]. intros reqs p Hp.
  assert (He' := run_timeline_incl db' reqs _ He). split.
  - destruct Hp as [Ha|(Hs & c & Hc & Eid & Em)].
    + now apply admin_sees_timeline.
    + apply (assigned_staff_sees_timeline _ p c); auto.
  - intros Hna. apply filter_none. intros l _. exact Hna.
Qed.

(** Meera, assigned to Asha's anonymous complaint, reads Asha's identifier
    off the timeline. *)
Lemma creation_entry_exposes_submitter_witness :
  In (creation_entry (tap 100 true) 200 0%Z)
     (select_timeline (run campus anonymous_assigned) meera)
  /\ TimelineEntry.updated_by (creation_entry (tap 100 true) 200 0%Z) = Some asha.
Proof.
  destruct (creation_entry_exposes_submitter campus asha (tap 100 true) 200 0%Z
              (run campus [(asha, InsertComplaint (tap 100 true) 200 0%Z)]))
    as (Hby & _ & Hsee).
  - vm_compute. reflexivity.
  - reflexivity.
  - split; [|exact Hby].
    apply (Hsee [(dean, UpdateComplaint 100 (set_staff_assigned (Some meera)))] meera).
    right. split; [vm_compute; reflexivity|].
    exists (set_staff_assigned (Some meera) (tap 100 true)).
    vm_compute. repeat split. now left.
Defined.

(** * Further properties of the store *)

(** ** Constraints *)

(** X1.  In every reachable state the primary keys of [complaints] and
    [identity_lockers] and the unique key of [user_roles] hold, every locker
    belongs to a complaint, and every rating passes its CHECK. *)
Theorem reachable_state_integrity db :
  reachable db ->
  NoDup (map Complaint.id (complaints db))
  /\ NoDup (map IdentityLocker.complaint_id (identity_lockers db))
  /\ (forall l, In l (identity_lockers db) ->
        complaint_exists db (IdentityLocker.complaint_id l) = true)
  /\ NoDup (map role_key (user_roles db))
  /\ (forall c, In c (complaints db) -> rating_check c = true).
Proof.
  intros Hr. apply reachable_consistent in Hr.
  destruct Hr as [Hpk Hlpk Hfk _ Hru Hrc]. repeat split; auto.
  intros l Hl. apply complaint_exists_in. auto.
Qed.

Lemma reachable_state_integrity_witness :
  NoDup (map Complaint.id (complaints (run campus cap_bypass)))
  /\ NoDup (map role_key (user_roles (run campus cap_bypass))).
Proof.
  destruct (reachable_state_integrity (run campus cap_bypass)
              (reachable_run _ _ (reachable_initial _ campus_initial)))
    as (H1 & _ & _ & H2 & _).
  split; assumption.
Defined.

(** ** The timeline is a ledger *)

(** X2.  The timeline is append-only: whatever statements clients send,
    the entries present stay, unchanged and in order, and new ones are added
    at the end. *)
Theorem timeline_is_append_only db reqs :
  exists suffix, complaint_timeline (run db reqs) = complaint_timeline db ++ suffix.
Proof.
  revert db. induction reqs as [|[uid s] reqs IH]; simpl; intros db.
  - exists []. now rewrite app_nil_r.
  - destruct (IH (step db (uid, s))) as (suffix & E). rewrite E. unfold step. simpl.
    destruct (exec db uid s) as [db'|] eqn:H; [|now exists suffix].
    apply exec_timeline_frame in H.
    destruct s; try (rewrite H; now exists suffix).
    rewrite H, <- app_assoc. eexists. reflexivity.
Qed.

(** ** Complaints are never removed *)

(** X3.  No client statement removes a complaint or changes its identifier:
    an identifier present in a reachable state is present after every further
    statement. *)
Theorem complaints_are_never_deleted db req i :
  reachable db ->
  complaint_exists db i = true ->
  complaint_exists (step db req) i = true.
Proof.
  intros Hr Hi. apply reachable_consistent in Hr. destruct req as [uid s].
  unfold step. simpl. destruct (exec db uid s) as [db'|] eqn:H; [|assumption].
  apply complaint_exists_in in Hi. apply complaint_exists_in.
  destruct s; try (apply exec_complaints_frame in H; rewrite H; assumption).
  - apply exec_complaints_frame in H. rewrite H, map_app. apply in_or_app. now left.
  - simpl in H. apply update_complaint_inv in H.
    destruct H as [->|(OLD & Hf & _ & _ & _ & _ & Href & ->)]; [assumption|]. simpl.
    apply (find_key Complaint.id N.eqb N.eqb_spec) in Hf. destruct Hf as [HO EO].
    apply in_map_iff in Hi. destruct Hi as (c & Ec & Hc). apply in_map_iff.
    destruct (N.eq_dec (Complaint.id c) target) as [Et|Et].
    + assert (c = OLD) as ->
          by (apply (key_unique Complaint.id (complaints db));
              [apply (complaints_pkey db Hr) | assumption | assumption | congruence]).
      destruct Href as [E|[E _]].
      * exists (set OLD). split; [congruence|].
        now apply (in_map_rekey_target Complaint.id N.eqb N.eqb_spec).
      * exfalso. destruct (creation_logged db Hr OLD HO) as (e & He & E1 & _).
        apply timeline_references_not_in in E. apply E. rewrite <- E1.
        now apply in_map.
    + exists c. split; [assumption|].
      now apply (in_map_rekey_other Complaint.id N.eqb N.eqb_spec).
Qed.

(** The dean cannot move Asha's complaint 100 to the identifier 500. *)
Lemma complaints_are_never_deleted_witness :
  complaint_exists
    (step (run campus anonymous_assigned)
          (dean, UpdateComplaint 100
                   (fun c => Complaint.mk 500 (Complaint.student_id c) (Complaint.category c)
                               (Complaint.severity c) (Complaint.title c)
                               (Complaint.description c) (Complaint.is_anonymous c)
                               (Complaint.status c) (Complaint.staff_assigned c)
                               (Complaint.rating c) (Complaint.created_at c)
                               (Complaint.resolved_at c) (Complaint.withdrawn_at c)
                               (Complaint.withdrawal_reason c))))
    100 = true.
Proof.
  apply complaints_are_never_deleted.
  - exact (reachable_run _ _ (reachable_initial _ campus_initial)).
  - vm_compute. reflexivity.
Defined.

(** ** Authority comes from [user_roles] alone *)

(** X4.  A caller without the admin role cannot change [user_roles]: every
    statement such a caller sends leaves the role assignments as they are. *)
Theorem only_admin_changes_roles db uid s :
  has_role db uid admin = false ->
  user_roles (step db (uid, s)) = user_roles db.
Proof.
  intros Hna. unfold step. simpl. destruct (exec db uid s) as [db'|] eqn:H; [|reflexivity].
  destruct s; simpl in H; try (inversion H; subst; reflexivity); try discriminate.
  - apply insert_complaint_inv in H. tauto.
  - apply update_complaint_inv in H. destruct H as [->|(? & _ & _ & _ & _ & _ & _ & ->)];
      reflexivity.
  - apply insert_identity_locker_inv in H. destruct H as (_ & _ & _ & ->). reflexivity.
  - apply update_identity_locker_inv in H.
    destruct H as [->|(? & _ & _ & _ & _ & ->)]; reflexivity.
  - apply insert_user_role_inv in H. destruct H as (Ha & _). congruence.
  - unfold update_user_role, user_roles_manage_policy in H. rewrite Hna in H.
    destruct (find _ _); inversion H; subst; reflexivity.
  - inversion H; subst. simpl. apply filter_all. intros x _.
    unfold user_roles_manage_policy. rewrite Hna. now rewrite andb_false_r.
Qed.

(** Asha's attempt to grant herself the admin role changes nothing. *)
Lemma only_admin_changes_roles_witness :
  user_roles (step campus (asha, InsertUserRole (UserRole.mk 99 asha admin)))
  = user_roles campus.
Proof. apply only_admin_changes_roles. vm_compute. reflexivity. Defined.

(** ** The dashboard *)

Lemma insert_desc_perm c l : Permutation (insert_desc c l) (c :: l).
Proof.
  induction l as [|x l IH]; simpl; [reflexivity|].
  destruct (Complaint.created_at x <=? Complaint.created_at c)%Z; [reflexivity|].
  rewrite IH. apply perm_swap.
Qed.

Lemma order_by_created_at_desc_perm l : Permutation (order_by_created_at_desc l) l.
Proof.
  induction l as [|x l IH]; simpl; [constructor|].
  rewrite insert_desc_perm. now constructor.
Qed.

Lemma filter_perm_length {A} (p : A -> bool) (l l' : list A) :
  Permutation l l' -> List.length (filter p l) = List.length (filter p l').
Proof.
  induction 1 as [|x l l' _ IH|x y l|l l' l'' _ IH1 _ IH2]; simpl.
  - reflexivity.
  - destruct (p x); simpl; congruence.
  - destruct (p x), (p y); reflexivity.
  - congruence.
Qed.

Lemma insert_desc_sorted c l :
  Sorted newer_or_equal l -> Sorted newer_or_equal (insert_desc c l).
Proof.
  induction l as [|x l IH]; simpl; intros Hs.
  - repeat constructor.
  - destruct (Z.leb_spec (Complaint.created_at x) (Complaint.created_at c)) as [Hle|Hgt].
    + constructor; [assumption|]. constructor. exact Hle.
    + inversion Hs as [|? ? Hl Hhd]; subst. constructor; [now apply IH|].
      destruct l as [|y l]; simpl.
      * constructor. unfold newer_or_equal. lia.
      * destruct (Complaint.created_at y <=? Complaint.created_at c)%Z.
        -- constructor. unfold newer_or_equal. lia.
        -- inversion Hhd; subst. now constructor.
Qed.

Lemma own_rows_visible db uid :
  filter (fun c => Complaint.student_id c =? uid) (select_complaints db uid)
  = filter (fun c => Complaint.student_id c =? uid) (complaints db).
Proof.
  unfold select_complaints. induction (complaints db) as [|c l IH]; simpl; [reflexivity|].
  unfold complaints_select_policy at 1, own_complaint.
  destruct (N.eqb_spec (Complaint.student_id c) uid) as [E|E].
  - rewrite <- E, N.eqb_refl. simpl. rewrite N.eqb_refl. f_equal. rewrite E. exact IH.
  - destruct (_ || _); simpl; [|exact IH].
    destruct (N.eqb_spec (Complaint.student_id c) uid); [contradiction | exact IH].
Qed.

Lemma filter_filter_and {A} (p q : A -> bool) (l : list A) :
  filter p (filter q l) = filter (fun a => q a && p a) l.
Proof.
  induction l as [|x l IH]; simpl; [reflexivity|].
  destruct (q x); simpl; [|exact IH]. destruct (p x); [f_equal|]; exact IH.
Qed.

(** X5.  The dashboard counts a user's active complaints as the insert
    trigger does, so the "Submit New Complaint" button is disabled exactly
    when the user's next insert would be refused for the cap. *)
Theorem dashboard_agrees_with_trigger db uid :
  List.length (activeComplaints (fetchComplaints db uid uid)) = active_count db uid
  /\ (submit_disabled (fetchComplaints db uid uid) = true ->
      forall NEW tl_id now, Complaint.student_id NEW = uid ->
        insert_complaint db uid NEW tl_id now = Error (raise_exception limit_message))
  /\ (submit_disabled (fetchComplaints db uid uid) = false ->
      forall NEW, Complaint.student_id NEW = uid ->
        check_active_complaint_limit db NEW = Ok NEW).
Proof.
  assert (E : List.length (activeComplaints (fetchComplaints db uid uid))
              = active_count db uid).
  { unfold activeComplaints, fetchComplaints, active_count.
    rewrite (filter_perm_length _ _ _ (order_by_created_at_desc_perm _)).
    rewrite own_rows_visible, filter_filter_and. f_equal. apply filter_ext.
    intros c. unfold is_active. now rewrite negb_involutive. }
  split; [exact E|]. unfold submit_disabled. rewrite E. split.
  - intros H NEW tl_id now <-. apply insert_over_cap. now apply Nat.leb_le.
  - intros H NEW <-. unfold check_active_complaint_limit. now rewrite H.
Qed.

(** With three active complaints Asha's button is disabled and her insert is
    refused. *)
Lemma dashboard_agrees_with_trigger_witness :
  submit_disabled (fetchComplaints (run campus three_submits) asha asha) = true
  /\ insert_complaint (run campus three_submits) asha (tap 103 false) 203 0%Z
     = Error (raise_exception limit_message).
Proof.
  split; [vm_compute; reflexivity|].
  apply (proj1 (proj2 (dashboard_agrees_with_trigger (run campus three_submits) asha)));
    vm_compute; reflexivity.
Defined.

(** X6.  [fetchComplaints] for the caller's own identifier returns exactly
    the caller's complaints, each once per row, newest first. *)
Theorem fetchComplaints_lists_own_newest_first db uid :
  Sorted newer_or_equal (fetchComplaints db uid uid)
  /\ Permutation (fetchComplaints db uid uid)
                 (filter (fun c => Complaint.student_id c =? uid) (complaints db)).
Proof.
  unfold fetchComplaints. split.
  - unfold order_by_created_at_desc.
    induction (filter _ (select_complaints db uid)) as [|c l IH]; simpl;
      [constructor | now apply insert_desc_sorted].
  - rewrite order_by_created_at_desc_perm. now rewrite own_rows_visible.
Qed.

(** ** Sign-up *)

Lemma existsb_string_in (c : string) (l : list string) :
  existsb (String.eqb c) l = true <-> In c l.
Proof.
  rewrite existsb_exists. split.
  - intros (x & Hx & E). apply String.eqb_eq in E. now subst.
  - intros H. exists c. split; [assumption | apply String.eqb_refl].
Qed.

Lemma drop_role_column_spec columns c :
  In c (drop_role_column columns) <-> In c columns /\ c <> "role".
Proof.
  unfold drop_role_column. destruct (existsb (String.eqb "role") columns) eqn:E.
  - rewrite filter_In, negb_true_iff, String.eqb_neq. tauto.
  - split; [|tauto]. intros H. split; [assumption|]. intros ->.
    apply existsb_string_in in H. congruence.
Qed.

(** X7.  [handle_new_user] names the column [role] of [profiles].  While the
    relation has the four columns the function names, a sign-up creates the
    profile of the new user, the name taken from the user's metadata and
    'Student' when the metadata has none (and raises on an identifier that
    already has a profile).  Once the second migration has dropped [role],
    every sign-up raises "column role does not exist" and none creates a
    profile. *)
Theorem signup_needs_the_role_column columns db NEW :
  In "id" columns -> In "name" columns -> In "email" columns ->
  (In "role" columns ->
   handle_new_user columns db NEW
   = if profile_exists db (AuthUser.id NEW) then SignupRaised unique_violation
     else ProfileCreated
            (mkdb (profiles db ++
                   [Profile.mk (AuthUser.id NEW)
                      (match json_text (AuthUser.raw_user_meta_data NEW) "name" with
                       | Some n => n
                       | None => "Student"
                       end)
                      (AuthUser.email NEW)])
                  (user_roles db) (complaints db) (complaint_timeline db)
                  (identity_lockers db)))
  /\ handle_new_user (drop_role_column columns) db NEW = UndefinedColumn "role".
Proof.
  intros Hid Hname Hemail. split.
  - intros Hrole. unfold handle_new_user, handle_new_user_targets. cbn [find].
    apply existsb_string_in in Hid, Hname, Hemail, Hrole.
    rewrite Hid, Hname, Hemail, Hrole. cbn [negb]. reflexivity.
  - unfold handle_new_user, handle_new_user_targets. cbn [find].
    assert (Hkeep : forall c, In c columns -> c <> "role" ->
                      existsb (String.eqb c) (drop_role_column columns) = true).
    { intros c Hc Hne. apply existsb_string_in, drop_role_column_spec. auto. }
    rewrite (Hkeep "id"), (Hkeep "name"), (Hkeep "email") by (assumption || discriminate).
    cbn [negb].
    destruct (existsb (String.eqb "role") (drop_role_column columns)) eqn:E; [|reflexivity].
    apply existsb_string_in, drop_role_column_spec in E. tauto.
Qed.

(** On the relation the first migration creates a new user gets a profile
    named 'Student'; after the second migration sign-up raises. *)
Lemma signup_needs_the_role_column_witness :
  handle_new_user profiles_columns campus (AuthUser.mk 5 "lina@campus.example" [])
  = ProfileCreated
      (mkdb (profiles campus ++ [Profile.mk 5 "Student" "lina@campus.example"])
            (user_roles campus) [] [] [])
  /\ handle_new_user (drop_role_column profiles_columns) campus
       (AuthUser.mk 5 "lina@campus.example" [("name", "Lina")])
     = UndefinedColumn "role".
Proof.
  split.
  - apply (proj1 (signup_needs_the_role_column profiles_columns campus
                    (AuthUser.mk 5 "lina@campus.example" [])
                    ltac:(simpl; tauto) ltac:(simpl; tauto) ltac:(simpl; tauto))).
    simpl. tauto.
  - apply (signup_needs_the_role_column profiles_columns campus
             (AuthUser.mk 5 "lina@campus.example" [("name", "Lina")]));
      simpl; tauto.
Defined.

(** ** Profiles *)

Lemma update_profile_inv rows uid target set now rows' :
  update_profile rows uid target set now = Ok rows' ->
  rows' = rows \/
  exists OLD,
    In OLD rows /\ ProfileRow.id OLD = target /\ target = uid
    /\ ProfileRow.id (set OLD) = uid
    /\ rows' = map (fun p => if ProfileRow.id p =? target
                             then update_updated_at_column (set p) now else p) rows.
Proof.
  unfold update_profile. intros H.
  destruct (find _ rows) as [OLD|] eqn:Hf; [|left; congruence].
  destruct (own_profile uid OLD) eqn:Hu; [|left; congruence].
  right. exists OLD. cbv zeta in H. requires H. inversion H; subst rows'.
  apply (find_key ProfileRow.id N.eqb N.eqb_spec) in Hf. destruct Hf as [HO EO].
  unfold own_profile in *. apply N.eqb_eq in Hu, Hreq. simpl in Hreq.
  repeat split; congruence.
Qed.

(** X8.  A profile is private to its owner and its key is fixed: a
    successful UPDATE on [profiles] leaves every identifier and every other
    user's row as they were, whatever the assignment, and a row it did change
    is the caller's own and carries the statement's time in [updated_at], not
    a time the caller chose.  A SELECT returns the caller's own row, at most
    one.  No role enters either policy. *)
Theorem profile_is_owned_and_stamped rows uid target set now rows' :
  NoDup (map ProfileRow.id rows) ->
  update_profile rows uid target set now = Ok rows' ->
  map ProfileRow.id rows' = map ProfileRow.id rows
  /\ (forall p, In p rows -> ProfileRow.id p <> uid -> In p rows')
  /\ (forall p', In p' rows' -> ~ In p' rows ->
        ProfileRow.id p' = uid /\ ProfileRow.updated_at p' = now)
  /\ (List.length (select_profiles rows' uid) <= 1)%nat
  /\ (forall p, In p (select_profiles rows' uid) -> ProfileRow.id p = uid).
Proof.
  intros Hpk H. apply update_profile_inv in H.
  assert (Hsel : forall l, NoDup (map ProfileRow.id l) ->
                   (List.length (select_profiles l uid) <= 1)%nat
                   /\ forall p, In p (select_profiles l uid) -> ProfileRow.id p = uid).
  { intros l Hl. split.
    - destruct (in_dec N.eq_dec uid (map ProfileRow.id l)) as [Hin|Hnin].
      + unfold select_profiles, own_profile.
        rewrite (filter_ext _ (fun p => ProfileRow.id p =? uid))
          by (intros p; apply N.eqb_sym).
        rewrite (count_key_one ProfileRow.id N.eqb N.eqb_spec l uid Hl Hin). lia.
      + unfold select_profiles. rewrite filter_none; [simpl; lia|].
        intros p Hp. unfold own_profile. apply N.eqb_neq. intros E.
        apply Hnin. rewrite E. now apply in_map.
    - intros p Hp. apply filter_In in Hp. destruct Hp as [_ E].
      unfold own_profile in E. apply N.eqb_eq in E. congruence. }
  destruct H as [->|(OLD & HO & EO & Et & Eset & ->)].
  - destruct (Hsel rows Hpk) as [H1 H2].
    split; [reflexivity|]. split; [auto|]. split; [|split; assumption].
    intros p' Hp' Hn. contradiction.
  - assert (Hsame : forall a, In a rows -> ProfileRow.id a = target -> a = OLD).
    { intros a Ha Ea. apply (key_unique ProfileRow.id rows); congruence. }
    assert (Hids : map ProfileRow.id
                     (map (fun p => if ProfileRow.id p =? target
                                    then update_updated_at_column (set p) now else p) rows)
                   = map ProfileRow.id rows).
    { rewrite map_map. apply map_ext_in. intros a Ha.
      destruct (N.eqb_spec (ProfileRow.id a) target) as [E|E]; [|reflexivity].
      rewrite (Hsame a Ha E). simpl. congruence. }
    split; [exact Hids|]. split; [|split].
    + intros p Hp Hne.
      apply (in_map_rekey_other ProfileRow.id N.eqb N.eqb_spec); congruence.
    + intros p' Hp' Hn.
      apply (in_map_rekey ProfileRow.id N.eqb N.eqb_spec) in Hp'.
      destruct Hp' as [[Hp' _]|(a & Ha & Ea & ->)]; [contradiction|].
      rewrite (Hsame a Ha Ea). simpl. auto.
    + apply Hsel. rewrite Hids. exact Hpk.
Qed.

(** Asha edits her hostel and tries to backdate the change: the row takes
    the statement's time 7, and Ravi's row is as it was. *)
Lemma profile_is_owned_and_stamped_witness :
  map ProfileRow.id two_profiles_after = map ProfileRow.id two_profiles
  /\ (forall p', In p' two_profiles_after -> ~ In p' two_profiles ->
         ProfileRow.id p' = asha /\ ProfileRow.updated_at p' = 7%Z)
  /\ (List.length (select_profiles two_profiles_after asha) <= 1)%nat.
Proof.
  destruct (profile_is_owned_and_stamped two_profiles asha asha move_in_backdated 7%Z
              two_profiles_after) as (H1 & _ & H3 & H4 & _).
  - repeat (constructor; [simpl; intuition discriminate|]). constructor.
  - vm_compute. reflexivity.
  - split; [exact H1 | split; [exact H3 | exact H4]].
Defined.

(** ** The timeline follows its complaint *)

Lemma complaint_id_survives_exec db uid s db' i :
  consistent db -> exec db uid s = Ok db' ->
  In i (map Complaint.id (complaints db)) -> In i (map Complaint.id (complaints db')).
Proof.
  intros Hdb H Hi.
  destruct s; try (apply exec_complaints_frame in H; rewrite H; assumption).
  - apply exec_complaints_frame in H. rewrite H, map_app. apply in_or_app. now left.
  - simpl in H. apply update_complaint_inv in H.
    destruct H as [->|(OLD & Hf & _ & _ & _ & _ & Href & ->)]; [assumption|]. simpl.
    apply (find_key Complaint.id N.eqb N.eqb_spec) in Hf. destruct Hf as [HO EO].
    apply in_map_iff in Hi. destruct Hi as (c & Ec & Hc). apply in_map_iff.
    destruct (N.eq_dec (Complaint.id c) target) as [Et|Et].
    + assert (c = OLD) as ->
          by (apply (key_unique Complaint.id (complaints db));
              [apply (complaints_pkey db Hdb) | assumption | assumption | congruence]).
      destruct Href as [E|[E _]].
      * exists (set OLD). split; [congruence|].
        now apply (in_map_rekey_target Complaint.id N.eqb N.eqb_spec).
      * exfalso. destruct (creation_logged db Hdb OLD HO) as (e & He & E1 & _).
        apply timeline_references_not_in in E. apply E. rewrite <- E1.
        now apply in_map.
    + exists c. split; [assumption|].
      now apply (in_map_rekey_other Complaint.id N.eqb N.eqb_spec).
Qed.

(** The foreign key of the timeline holds in every reachable state. *)
Lemma timeline_fkey db :
  reachable db ->
  forall e, In e (complaint_timeline db) ->
    In (TimelineEntry.complaint_id e) (map Complaint.id (complaints db)).
Proof.
  induction 1 as [db Hi | db uid s Hr IH].
  - destruct Hi as (_ & Ht & _). rewrite Ht. intros e [].
  - unfold step. simpl. destruct (exec db uid s) as [db'|] eqn:H; [|assumption].
    intros e He. assert (Hdb := reachable_consistent db Hr).
    assert (Hold : In e (complaint_timeline db) ->
                   In (TimelineEntry.complaint_id e) (map Complaint.id (complaints db'))).
    { intros Hin. eapply complaint_id_survives_exec; eauto. }
    assert (Ht := exec_timeline_frame _ _ _ _ H).
    destruct s; try (rewrite Ht in He; auto).
    apply in_app_or in He. destruct He as [He|[<-|[]]]; [auto|].
    apply exec_complaints_frame in H. rewrite H, map_app. apply in_or_app.
    right. now left.
Qed.

(** X9.  In a reachable state a caller's SELECT on the timeline returns an
    entry exactly when the caller's SELECT on [complaints] returns the
    complaint the entry belongs to: the two sets of policies agree, for the
    submitter, for assigned staff and for an admin. *)
Theorem timeline_is_read_with_its_complaint db uid e :
  reachable db ->
  In e (select_timeline db uid)
  <-> In e (complaint_timeline db)
      /\ exists c, In c (read_complaint db uid (TimelineEntry.complaint_id e)).
Proof.
  intros Hr. unfold select_timeline. rewrite filter_In. split.
  - intros [He Hp]. split; [assumption|].
    unfold timeline_select_policy in Hp.
    apply orb_true_iff in Hp. destruct Hp as [Hp|Hp];
      [apply orb_true_iff in Hp; destruct Hp as [Hp|Hp]|].
    + unfold own_complaint_timeline in Hp. apply existsb_exists in Hp.
      destruct Hp as (c & Hc & E). apply filter_In in Hc. destruct Hc as [Hc _].
      exists c. apply filter_In. auto.
    + unfold staff_assigned_timeline in Hp. apply andb_true_iff in Hp.
      destruct Hp as [_ Hp]. apply existsb_exists in Hp.
      destruct Hp as (c & Hc & E). apply filter_In in Hc. destruct Hc as [Hc _].
      exists c. apply filter_In. auto.
    + unfold admin_any_timeline in Hp.
      assert (Hfk := timeline_fkey db Hr e He). apply in_map_iff in Hfk.
      destruct Hfk as (c & Ec & Hc). exists c. apply read_complaint_In.
      split; [assumption|]. split; [|assumption].
      unfold complaints_select_policy, admin_any_complaint. rewrite Hp.
      apply orb_true_r.
  - intros [He (c & Hc)]. split; [assumption|].
    apply read_complaint_In in Hc. destruct Hc as (Hc & Hp & E).
    assert (Hsel : In c (select_complaints db uid)) by (apply filter_In; auto).
    unfold complaints_select_policy in Hp. unfold timeline_select_policy.
    apply orb_true_iff in Hp. destruct Hp as [Hp|Hp];
      [apply orb_true_iff in Hp; destruct Hp as [Hp|Hp]|].
    + apply orb_true_iff. left. apply orb_true_iff. left.
      unfold own_complaint_timeline. apply existsb_exists. exists c.
      split; [|now apply N.eqb_eq]. apply filter_In. split; [assumption|].
      unfold own_complaint in Hp. now rewrite N.eqb_sym.
    + apply orb_true_iff. left. apply orb_true_iff. right.
      unfold staff_assigned_complaint in Hp. apply andb_true_iff in Hp.
      destruct Hp as [Hs Hm]. unfold staff_assigned_timeline. rewrite Hs. simpl.
      apply existsb_exists. exists c. split; [|now apply N.eqb_eq].
      apply filter_In. auto.
    + apply orb_true_iff. right. exact Hp.
Qed.

(** Ravi reads neither Asha's complaint nor its timeline; Meera, assigned to
    it, reads both. *)
Lemma timeline_is_read_with_its_complaint_witness :
  (In (creation_entry (tap 100 true) 200 0%Z)
      (select_timeline (run campus anonymous_assigned) meera)
   <-> In (creation_entry (tap 100 true) 200 0%Z)
          (complaint_timeline (run campus anonymous_assigned))
       /\ exists c, In c (read_complaint (run campus anonymous_assigned) meera 100))
  /\ select_timeline (run campus anonymous_assigned) ravi = [].
Proof.
  split; [|vm_compute; reflexivity].
  apply (timeline_is_read_with_its_complaint (run campus anonymous_assigned) meera
           (creation_entry (tap 100 true) 200 0%Z)).
  exact (reachable_run _ _ (reachable_initial _ campus_initial)).
Defined.

(** ** What WITH CHECK keeps a caller from doing *)

(** X10.  An UPDATE cannot move a complaint out of its caller's reach: every
    row a successful update writes is one the caller can still read, and for
    a caller without the admin role its submitter is the caller or, the
    caller being staff, its assignee is the caller.  One of the two is
    enough, the policies being OR-ed: the row may name the caller as
    submitter and anyone as assignee.  Every row written by a caller who is
    neither staff nor admin has the caller as its submitter.  An update whose
    new row fails the policies raises a row-level-security violation and
    changes nothing. *)
Theorem update_keeps_the_row_in_reach db uid target set :
  reachable db ->
  (forall db', update_complaint db uid target set = Ok db' ->
     forall c', In c' (complaints db') -> ~ In c' (complaints db) ->
       complaints_select_policy db' uid c' = true
       /\ (has_role db uid admin = false ->
           Complaint.student_id c' = uid
           \/ (has_role db uid staff = true /\ Complaint.staff_assigned c' = Some uid))
       /\ (has_role db uid admin = false -> has_role db uid staff = false ->
           Complaint.student_id c' = uid))
  /\ (forall c, In c (complaints db) -> Complaint.id c = target ->
        complaints_update_using db uid c = true ->
        complaints_update_check db uid (set c) = false ->
        update_complaint db uid target set = Error rls_violation
        /\ step db (uid, UpdateComplaint target set) = db).
Proof.
  intros Hr. assert (Hdb := reachable_consistent db Hr). split.
  - intros db' H c' Hc' Hnew. apply update_complaint_inv in H.
    destruct H as [->|(OLD & Hf & _ & Hchk & _ & _ & _ & ->)]; [contradiction|].
    simpl in Hc'. apply (find_key Complaint.id N.eqb N.eqb_spec) in Hf.
    destruct Hf as [HO EO].
    apply (in_map_rekey Complaint.id N.eqb N.eqb_spec) in Hc'.
    destruct Hc' as [[Hc' _]|(a & Ha & Ea & ->)]; [contradiction|].
    assert (a = OLD) as ->
        by (apply (key_unique Complaint.id (complaints db));
            [apply (complaints_pkey db Hdb) | assumption | assumption | congruence]).
    split; [exact Hchk|].
    unfold complaints_update_check, own_complaint, staff_assigned_complaint,
      admin_any_complaint in Hchk.
    split.
    + intros Hna. rewrite Hna, orb_false_r in Hchk. apply orb_true_iff in Hchk.
      destruct Hchk as [E|E]; [left; apply N.eqb_eq in E; congruence|].
      right. apply andb_true_iff in E. destruct E as [Hs Hm]. split; [assumption|].
      destruct (Complaint.staff_assigned (set OLD)) as [m|]; simpl in Hm; [|discriminate].
      apply N.eqb_eq in Hm. congruence.
    + intros Hna Hns. rewrite Hna, Hns in Hchk. simpl in Hchk.
      rewrite !orb_false_r in Hchk. apply N.eqb_eq in Hchk. congruence.
  - intros c Hc Ec Hu Hchk.
    assert (E : update_complaint db uid target set = Error rls_violation).
    { unfold update_complaint. rewrite <- Ec.
      rewrite (find_key_unique Complaint.id _ c (complaints_pkey db Hdb) Hc).
      rewrite Hu. cbv zeta. now rewrite Hchk. }
    split; [exact E|]. unfold step. simpl. now rewrite E.
Qed.

(** Asha cannot sign her complaint over to Ravi. *)
Lemma update_keeps_the_row_in_reach_witness :
  update_complaint (run campus three_submits) asha 100
    (fun c => Complaint.mk (Complaint.id c) ravi (Complaint.category c)
                (Complaint.severity c) (Complaint.title c) (Complaint.description c)
                (Complaint.is_anonymous c) (Complaint.status c)
                (Complaint.staff_assigned c) (Complaint.rating c)
                (Complaint.created_at c) (Complaint.resolved_at c)
                (Complaint.withdrawn_at c) (Complaint.withdrawal_reason c))
  = Error rls_violation.
Proof.
  apply (proj2 (update_keeps_the_row_in_reach (run campus three_submits) asha 100 _
                  (reachable_run _ _ (reachable_initial _ campus_initial)))
           (tap 100 false)).
  - vm_compute. now left.
  - reflexivity.
  - vm_compute. reflexivity.
  - vm_compute. reflexivity.
Defined.

(** ** Filing needs no role *)

Lemma create_identity_locker_roles db roles NEW :
  create_identity_locker (set_user_roles db roles) NEW
  = match create_identity_locker db NEW with
    | Ok db' => Ok (set_user_roles db' roles)
    | Error e => Error e
    end.
Proof.
  unfold create_identity_locker. destruct (Complaint.is_anonymous NEW); [|reflexivity].
  change (locker_exists (set_user_roles db roles)) with (locker_exists db).
  destruct (locker_exists db (Complaint.id NEW)); [reflexivity|].
  change (complaint_exists (set_user_roles db roles)) with (complaint_exists db).
  change (profile_exists (set_user_roles db roles)) with (profile_exists db).
  destruct (complaint_exists db (Complaint.id NEW)); [|reflexivity].
  destruct (profile_exists db (Complaint.student_id NEW)); reflexivity.
Qed.

Lemma add_complaint_timeline_roles db roles NEW tl_id now :
  add_complaint_timeline (set_user_roles db roles) NEW tl_id now
  = match add_complaint_timeline db NEW tl_id now with
    | Ok db' => Ok (set_user_roles db' roles)
    | Error e => Error e
    end.
Proof.
  unfold add_complaint_timeline, insert_timeline_row.
  change (timeline_id_exists (set_user_roles db roles)) with (timeline_id_exists db).
  change (complaint_exists (set_user_roles db roles)) with (complaint_exists db).
  change (profile_ref_ok (set_user_roles db roles)) with (profile_ref_ok db).
  destruct (negb (timeline_id_exists db _)); [|reflexivity].
  destruct (complaint_exists db _); [|reflexivity].
  destruct (profile_ref_ok db _); reflexivity.
Qed.

(** X11.  The INSERT on [complaints] and its triggers never consult
    [user_roles]: with any other role assignments the statement has the same
    outcome, the same error or the same new rows.  Filing a complaint thus
    needs no student role, and staff and admins can file too. *)
Theorem insert_needs_no_role db roles uid NEW tl_id now :
  insert_complaint (set_user_roles db roles) uid NEW tl_id now
  = match insert_complaint db uid NEW tl_id now with
    | Ok db' => Ok (set_user_roles db' roles)
    | Error e => Error e
    end.
Proof.
  unfold insert_complaint, check_active_complaint_limit.
  change (active_count (set_user_roles db roles)) with (active_count db).
  destruct (3 <=? active_count db (Complaint.student_id NEW))%nat; [reflexivity|].
  cbn [bind].
  change (complaint_exists (set_user_roles db roles)) with (complaint_exists db).
  change (profile_exists (set_user_roles db roles)) with (profile_exists db).
  change (profile_ref_ok (set_user_roles db roles)) with (profile_ref_ok db).
  destruct (complaints_insert_check uid NEW); [|reflexivity].
  destruct (rating_check NEW); [|reflexivity].
  destruct (negb (complaint_exists db (Complaint.id NEW))); [|reflexivity].
  destruct (profile_exists db (Complaint.student_id NEW)
            && profile_ref_ok db (Complaint.staff_assigned NEW)); [|reflexivity].
  cbn [require bind].
  change (set_complaints (set_user_roles db roles)
            (complaints (set_user_roles db roles) ++ [NEW]))
    with (set_user_roles (set_complaints db (complaints db ++ [NEW])) roles).
  unfold on_anonymous_complaint.
  destruct (Complaint.is_anonymous NEW) eqn:Hanon.
  - rewrite create_identity_locker_roles.
    destruct (create_identity_locker _ NEW) as [db1|]; [|reflexivity].
    cbn [bind]. apply add_complaint_timeline_roles.
  - cbn [bind]. apply add_complaint_timeline_roles.
Qed.

(** The dean, who holds the admin role only, files a complaint. *)
Lemma insert_needs_no_role_witness :
  has_role campus dean student = false
  /\ succeeded (insert_complaint campus dean
                  (submitted_row 100 dean "Broken lift" "The lift in the main block is stuck"
                                 infrastructure high false 0%Z)
                  200 0%Z) = true
  /\ succeeded (insert_complaint (set_user_roles campus []) dean
                  (submitted_row 100 dean "Broken lift" "The lift in the main block is stuck"
                                 infrastructure high false 0%Z)
                  200 0%Z) = true.
Proof.
  split; [vm_compute; reflexivity|]. split; [vm_compute; reflexivity|].
  rewrite insert_needs_no_role. vm_compute. reflexivity.
Defined.

(** ** Granting and revoking *)

Lemma has_role_granted db rid p role u r :
  has_role (set_user_roles db (user_roles db ++ [UserRole.mk rid p role])) u r
  = has_role db u r || role_key_eqb (p, role) (u, r).
Proof.
  unfold has_role. simpl. rewrite existsb_app. simpl. now rewrite orb_false_r.
Qed.

Lemma has_role_revoked db uid p role u r :
  has_role db uid admin = true ->
  has_role (delete_user_role db uid p role) u r
  = has_role db u r && negb (role_key_eqb (u, r) (p, role)).
Proof.
  intros Ha. apply eq_iff_eq_true.
  rewrite andb_true_iff, negb_true_iff, !has_role_key.
  unfold delete_user_role, user_roles_manage_policy. simpl. rewrite Ha.
  rewrite !in_map_iff. split.
  - intros (x & E & Hx). apply filter_In in Hx. destruct Hx as [Hx Hk].
    rewrite andb_true_r, negb_true_iff, E in Hk. split; [eauto | exact Hk].
  - intros [(x & E & Hx) Hk]. exists x. split; [assumption|]. apply filter_In.
    split; [assumption|]. now rewrite andb_true_r, negb_true_iff, E.
Qed.

(** X12.  An admin's grant of a role the principal does not hold goes
    through and makes [has_role] true for that pair alone; the admin's DELETE
    of the pair then makes it false again, and neither changes what
    [has_role] answers for any other pair. *)
Theorem grant_then_revoke db uid rid principalId role :
  has_role db uid admin = true ->
  has_role db principalId role = false ->
  user_role_id_exists db rid = false ->
  profile_exists db principalId = true ->
  exists db',
    grantRole db uid rid principalId role = Ok db'
    /\ has_role db' principalId role = true
    /\ has_role (delete_user_role db' uid principalId role) principalId role = false
    /\ forall u r, (u, r) <> (principalId, role) ->
         has_role db' u r = has_role db u r
         /\ has_role (delete_user_role db' uid principalId role) u r = has_role db u r.
Proof.
  intros Ha Hno Hid Hp.
  assert (Hrefl : forall k, role_key_eqb k k = true).
  { intros k. now destruct (role_key_eqb_spec k k). }
  assert (Hadm' : has_role (set_user_roles db
                              (user_roles db ++ [UserRole.mk rid principalId role]))
                           uid admin = true).
  { rewrite has_role_granted, Ha. reflexivity. }
  exists (set_user_roles db (user_roles db ++ [UserRole.mk rid principalId role])).
  split; [|split; [|split]].
  - unfold grantRole, insert_user_role, user_roles_manage_policy. simpl.
    now rewrite Ha, Hid, Hno, Hp.
  - rewrite has_role_granted, Hrefl. apply orb_true_r.
  - rewrite (has_role_revoked _ _ _ _ _ _ Hadm'), Hrefl. simpl. apply andb_false_r.
  - intros u r Hne.
    assert (Hk : role_key_eqb (u, r) (principalId, role) = false).
    { destruct (role_key_eqb_spec (u, r) (principalId, role));
        [contradiction | reflexivity]. }
    assert (Hk' : role_key_eqb (principalId, role) (u, r) = false).
    { destruct (role_key_eqb_spec (principalId, role) (u, r)); [|reflexivity].
      exfalso. apply Hne. congruence. }
    rewrite (has_role_revoked _ _ _ _ _ _ Hadm'), has_role_granted, Hk, Hk'. simpl.
    now rewrite orb_false_r, andb_true_r.
Qed.

(** The dean makes Ravi staff and takes the role back. *)
Lemma grant_then_revoke_witness :
  exists db',
    grantRole campus dean 99 ravi staff = Ok db'
    /\ has_role db' ravi staff = true
    /\ has_role (delete_user_role db' dean ravi staff) ravi staff = false
    /\ forall u r, (u, r) <> (ravi, staff) ->
         has_role db' u r = has_role campus u r
         /\ has_role (delete_user_role db' dean ravi staff) u r = has_role campus u r.
Proof.
  apply (grant_then_revoke campus dean 99 ravi staff); vm_compute; reflexivity.
Defined.

(** ** Reading back what was filed *)

(** X13.  In a reachable state, after a successful INSERT the submitter's
    read of the new identifier returns exactly the row filed, the dashboard's
    listing contains it and the submitter's timeline shows its creation entry;
    a caller who is not the submitter, not an admin and not staff assigned to
    it reads nothing under that identifier. *)
Theorem submitter_reads_back_the_complaint db uid NEW tl_id now db' :
  reachable db ->
  insert_complaint db uid NEW tl_id now = Ok db' ->
  read_complaint db' uid (Complaint.id NEW) = [NEW]
  /\ In NEW (fetchComplaints db' uid uid)
  /\ In (creation_entry NEW tl_id now) (select_timeline db' uid)
  /\ forall stranger,
       stranger <> uid ->
       has_role db' stranger admin = false ->
       (has_role db' stranger staff = false
        \/ Complaint.staff_assigned NEW <> Some stranger) ->
       read_complaint db' stranger (Complaint.id NEW) = [].
Proof.
  intros Hr H. apply reachable_consistent in Hr.
  assert (Hdb' := consistent_insert_complaint _ _ _ _ _ _ Hr H).
  apply insert_complaint_inv in H.
  destruct H as (_ & Eu & _ & Hnew & _ & _ & Ec & Et & _).
  apply complaint_exists_not_in in Hnew.
  assert (Hown : complaints_select_policy db' uid NEW = true).
  { unfold complaints_select_policy, own_complaint. rewrite <- Eu, N.eqb_refl. reflexivity. }
  assert (Hin : In NEW (complaints db')) by (rewrite Ec; apply in_or_app; right; now left).
  assert (Hsel : In NEW (select_complaints db' uid)) by (apply filter_In; auto).
  split; [|split; [|split]].
  - unfold read_complaint, select_complaints. rewrite Ec, !filter_app. simpl.
    rewrite Hown. simpl. rewrite N.eqb_refl.
    rewrite filter_none; [reflexivity|]. intros c Hc. apply filter_In in Hc.
    destruct Hc as [Hc _]. apply N.eqb_neq. intros E. apply Hnew. rewrite <- E.
    now apply in_map.
  - unfold fetchComplaints.
    apply (Permutation_in _ (Permutation_sym (order_by_created_at_desc_perm _))).
    apply filter_In. split; [assumption|]. apply N.eqb_eq. now symmetry.
  - apply filter_In. split; [rewrite Et; apply in_or_app; right; now left|].
    unfold timeline_select_policy, own_complaint_timeline.
    apply orb_true_iff. left. apply orb_true_iff. left.
    apply existsb_exists. exists NEW. split; [|apply N.eqb_refl].
    apply filter_In. split; [assumption|]. apply N.eqb_eq. now symmetry.
  - intros stranger Hne Hna Hns.
    apply (read_filtered db' stranger NEW (complaints_pkey db' Hdb') Hin).
    unfold complaints_select_policy, own_complaint, staff_assigned_complaint,
      admin_any_complaint. rewrite Hna, orb_false_r.
    apply orb_false_iff. split; [apply N.eqb_neq; congruence|].
    destruct Hns as [Hs|Hm]; [now rewrite Hs|]. apply andb_false_iff. right.
    destruct (Complaint.staff_assigned NEW) as [m|]; simpl; [|reflexivity].
    apply N.eqb_neq. congruence.
Qed.

(** Asha reads back her anonymous complaint; Ravi reads nothing. *)
Lemma submitter_reads_back_the_complaint_witness :
  read_complaint (step campus (asha, InsertComplaint (tap 100 true) 200 0%Z)) asha 100
  = [tap 100 true]
  /\ read_complaint (step campus (asha, InsertComplaint (tap 100 true) 200 0%Z)) ravi 100
     = [].
Proof.
  destruct (submitter_reads_back_the_complaint campus asha (tap 100 true) 200 0%Z
              (step campus (asha, InsertComplaint (tap 100 true) 200 0%Z)))
    as (H1 & _ & _ & H4).
  - exact (reachable_initial _ campus_initial).
  - vm_compute. reflexivity.
  - split; [exact H1|]. apply H4; [discriminate | vm_compute; reflexivity |].
    left. vm_compute. reflexivity.
Defined.

(** ** Leaving the active set frees a slot *)

Lemma update_complaint_in_place db uid c set :
  consistent db -> In c (complaints db) ->
  complaints_update_using db uid c = true ->
  Complaint.id (set c) = Complaint.id c ->
  Complaint.student_id (set c) = Complaint.student_id c ->
  Complaint.staff_assigned (set c) = Complaint.staff_assigned c ->
  rating_check (set c) = true ->
  update_complaint db uid (Complaint.id c) set
  = Ok (set_complaints db
          (map (fun c' => if Complaint.id c' =? Complaint.id c then set c' else c')
               (complaints db))).
Proof.
  intros Hdb Hc Hu Eid Es Em Hr. unfold update_complaint.
  rewrite (find_key_unique Complaint.id _ c (complaints_pkey db Hdb) Hc).
  rewrite Hu. cbv zeta.
  assert (Hchk : complaints_update_check db uid (set c) = true).
  { unfold complaints_update_check, complaints_update_using, own_complaint,
      staff_assigned_complaint, admin_any_complaint in *. now rewrite Es, Em. }
  rewrite Hchk, Hr, Eid, Es, Em. simpl.
  now rewrite !N.eqb_refl, opt_uuid_eqb_refl.
Qed.

Lemma count_after_rewrite {A} (key : A -> uuid) (p : A -> bool) (g : A -> A)
    (l : list A) (a : A) :
  NoDup (map key l) -> In a l ->
  Nat.add (List.length (filter p (map (fun x => if key x =? key a then g x else x) l)))
          (Nat.b2n (p a))
  = Nat.add (List.length (filter p l)) (Nat.b2n (p (g a))).
Proof.
  induction l as [|x l IH]; simpl; [tauto|]. intros Hnd Ha.
  inversion Hnd as [|? ? Hx Hl]; subst. destruct Ha as [->|Ha].
  - rewrite N.eqb_refl. rewrite (map_untouched key N.eqb N.eqb_spec) by exact Hx.
    destruct (p a), (p (g a)); simpl; lia.
  - destruct (N.eqb_spec (key x) (key a)) as [E|E].
    + exfalso. apply Hx. rewrite E. now apply in_map.
    + specialize (IH Hl Ha). destruct (p x); simpl; lia.
Qed.

(** X14.  In a reachable state, an update that takes an active complaint out
    of the active set (resolving or withdrawing it) while keeping its
    identifier, submitter, assignee and rating lowers the submitter's active
    count by exactly one and leaves every other submitter's count as it was;
    when the submitter was at the cap of 3, the limit check passes for the
    submitter's next insert. *)
Theorem leaving_active_frees_a_slot db uid c set :
  reachable db ->
  In c (complaints db) ->
  is_active c = true ->
  complaints_update_using db uid c = true ->
  Complaint.id (set c) = Complaint.id c ->
  Complaint.student_id (set c) = Complaint.student_id c ->
  Complaint.staff_assigned (set c) = Complaint.staff_assigned c ->
  rating_check (set c) = true ->
  is_active (set c) = false ->
  exists db',
    update_complaint db uid (Complaint.id c) set = Ok db'
    /\ S (active_count db' (Complaint.student_id c)) = active_count db (Complaint.student_id c)
    /\ (forall sid, sid <> Complaint.student_id c ->
          active_count db' sid = active_count db sid)
    /\ (forall NEW, Complaint.student_id NEW = Complaint.student_id c ->
          (active_count db (Complaint.student_id c) <= 3)%nat ->
          check_active_complaint_limit db' NEW = Ok NEW).
Proof.
  intros Hr Hc Hact Hu Eid Es Em Hrat Hoff. apply reachable_consistent in Hr.
  eexists. split; [now apply update_complaint_in_place|].
  assert (Hcount : forall sid,
    Nat.add (active_count
               (set_complaints db
                  (map (fun c' => if Complaint.id c' =? Complaint.id c then set c' else c')
                       (complaints db))) sid)
            (Nat.b2n ((Complaint.student_id c =? sid) && is_active c))
    = Nat.add (active_count db sid)
              (Nat.b2n ((Complaint.student_id (set c) =? sid) && is_active (set c)))).
  { intros sid. unfold active_count. simpl.
    apply (count_after_rewrite Complaint.id
             (fun x => (Complaint.student_id x =? sid) && is_active x));
      [apply (complaints_pkey db Hr) | assumption]. }
  assert (Hdown : S (active_count
                       (set_complaints db
                          (map (fun c' => if Complaint.id c' =? Complaint.id c
                                          then set c' else c') (complaints db)))
                       (Complaint.student_id c))
                  = active_count db (Complaint.student_id c)).
  { specialize (Hcount (Complaint.student_id c)).
    rewrite Es, N.eqb_refl, Hact, Hoff in Hcount. simpl in Hcount. lia. }
  split; [exact Hdown|]. split.
  - intros sid Hne. specialize (Hcount sid). rewrite Es in Hcount.
    destruct (N.eqb_spec (Complaint.student_id c) sid) as [E|E]; [congruence|].
    simpl in Hcount. lia.
  - intros NEW En Hcap. unfold check_active_complaint_limit. rewrite En.
    destruct (Nat.leb_spec 3 (active_count
                (set_complaints db
                   (map (fun c' => if Complaint.id c' =? Complaint.id c
                                   then set c' else c') (complaints db)))
                (Complaint.student_id c))) as [Hle|Hlt]; [lia | reflexivity].
Qed.

(** At the cap, Asha withdraws complaint 100 and her next insert is
    accepted. *)
Lemma leaving_active_frees_a_slot_witness :
  insert_complaint (run campus three_submits) asha (tap 103 false) 203 0%Z
  = Error (raise_exception limit_message)
  /\ exists db',
       update_complaint (run campus three_submits) asha 100
         (set_withdrawn (Some 5%Z) (Some "filed by mistake")) = Ok db'
       /\ S (active_count db' asha) = active_count (run campus three_submits) asha
       /\ succeeded (insert_complaint db' asha (tap 103 false) 203 6%Z) = true.
Proof.
  split; [vm_compute; reflexivity|].
  destruct (leaving_active_frees_a_slot (run campus three_submits) asha (tap 100 false)
              (set_withdrawn (Some 5%Z) (Some "filed by mistake")))
    as (db' & Hup & Hdown & _ & _);
    try (vm_compute; reflexivity).
  - exact (reachable_run _ _ (reachable_initial _ campus_initial)).
  - vm_compute. now left.
  - exists db'. split; [exact Hup|]. split; [exact Hdown|].
    change (Complaint.id (tap 100 false)) with 100 in Hup.
    assert (E : update_complaint (run campus three_submits) asha 100
                  (set_withdrawn (Some 5%Z) (Some "filed by mistake"))
                = Ok (run campus (three_submits ++
                        [(asha, UpdateComplaint 100
                                  (set_withdrawn (Some 5%Z) (Some "filed by mistake")))])))
      by (vm_compute; reflexivity).
    rewrite E in Hup. inversion Hup; subst db'. vm_compute. reflexivity.
Defined.

(** ** The submission form *)

Lemma string_issues_nil path min message max s :
  string_issues path min message max s = []
  <-> (min <= List.length s)%nat /\ (List.length s <= max)%nat.
Proof.
  unfold string_issues.
  destruct (Nat.ltb_spec (List.length s) min) as [Hlo|Hlo],
    (Nat.ltb_spec max (List.length s)) as [Hhi|Hhi];
    simpl; split; intros Hyp; try discriminate; try lia; reflexivity.
Qed.

Lemma complaintSchema_parse_inl f v :
  complaintSchema_parse f = inl v <->
  (5 <= List.length (FormData.title f) <= 100)%nat
  /\ (20 <= List.length (FormData.description f) <= 1000)%nat
  /\ parse_category (FormData.category f) = Some (Validated.category v)
  /\ parse_severity (FormData.severity f) = Some (Validated.severity v)
  /\ Validated.title v = FormData.title f
  /\ Validated.description v = FormData.description f.
Proof.
  unfold complaintSchema_parse. cbv zeta.
  destruct (parse_category (FormData.category f)) as [c|];
    [destruct (parse_severity (FormData.severity f)) as [s|]|].
  - destruct (string_issues "title" _ _ _ _ ++ string_issues "description" _ _ _ _)
      as [|i l] eqn:E.
    + apply app_eq_nil in E. destruct E as [E1 E2].
      apply string_issues_nil in E1, E2. split.
      * intros H. inversion H; subst. simpl. repeat split; lia.
      * intros (_ & _ & Hc & Hs & Ht & Hd). destruct v; simpl in *. congruence.
    + split; [discriminate|]. intros (H1 & H2 & _). exfalso.
      assert (E' : string_issues "title" 5 "Title must be at least 5 characters" 100
                     (FormData.title f) ++
                   string_issues "description" 20
                     "Description must be at least 20 characters" 1000
                     (FormData.description f) = []).
      { rewrite (proj2 (string_issues_nil "title" 5 _ 100 _)) by lia.
        rewrite (proj2 (string_issues_nil "description" 20 _ 1000 _)) by lia.
        reflexivity. }
      congruence.
  - split; [discriminate|]. intros (_ & _ & _ & H & _). discriminate.
  - split; [discriminate|]. intros (_ & _ & H & _). discriminate.
Qed.

Lemma complaintSchema_parse_first f i :
  complaintSchema_parse f = inr i -> hd_error (complaintSchema_issues f) = Some i.
Proof.
  unfold complaintSchema_parse, complaintSchema_issues, enum_issues. cbv zeta.
  destruct (string_issues "title" _ _ _ _) as [|t ts];
    destruct (string_issues "description" _ _ _ _) as [|d ds];
    destruct (parse_category (FormData.category f));
    destruct (parse_severity (FormData.severity f)); simpl; congruence.
Qed.

(** X15.  A complaint filed through the form is well formed: when
    [handleSubmit] navigates to the dashboard, the store holds a new
    complaint of the signed-in user whose title and description are the text
    of the form's, the form's title being 5 to 100 UTF-16 code units long and
    its description 20 to 1000 (the [length] zod tests), with status
    submitted, no assignee, rating or withdrawal, together with its creation
    entry and, exactly when the form asked for anonymity, its identity
    locker; and the user held fewer than 3 active complaints in the state the
    insert ran in.  When it does not navigate, the store is as it was and the
    toast is an error. *)
Theorem handleSubmit_files_a_well_formed_complaint as_text db user formData id tl_id now :
  reachable db ->
  (navigated (handleSubmit as_text db user formData id tl_id now) = None ->
   store (handleSubmit as_text db user formData id tl_id now) = db
   /\ destructive (handleSubmit as_text db user formData id tl_id now) = true)
  /\ (forall path,
        navigated (handleSubmit as_text db user formData id tl_id now) = Some path ->
        path = "/dashboard"
        /\ exists u c,
             user = Some u
             /\ In c (complaints (store (handleSubmit as_text db user formData id tl_id now)))
             /\ ~ In c (complaints db)
             /\ Complaint.id c = id /\ Complaint.student_id c = u
             /\ as_text (FormData.title formData) = Some (Complaint.title c)
             /\ as_text (FormData.description formData) = Some (Complaint.description c)
             /\ (5 <= List.length (FormData.title formData) <= 100)%nat
             /\ (20 <= List.length (FormData.description formData) <= 1000)%nat
             /\ Complaint.status c = submitted
             /\ Complaint.staff_assigned c = None
             /\ Complaint.rating c = None
             /\ Complaint.withdrawn_at c = None
             /\ Complaint.is_anonymous c = FormData.isAnonymous formData
             /\ In (creation_entry c tl_id now)
                   (complaint_timeline
                      (store (handleSubmit as_text db user formData id tl_id now)))
             /\ locker_exists (store (handleSubmit as_text db user formData id tl_id now)) id
                = FormData.isAnonymous formData
             /\ (active_count db u < 3)%nat).
Proof.
  intros Hr. unfold handleSubmit. destruct user as [u|]; [|split; [auto | discriminate]].
  destruct (complaintSchema_parse formData) as [v|i] eqn:Hparse;
    [|split; [auto | discriminate]].
  destruct (as_text (Validated.title v)) as [title|] eqn:Htitle;
    [|split; [auto | discriminate]].
  destruct (as_text (Validated.description v)) as [description|] eqn:Hdescription;
    [|split; [auto | discriminate]].
  destruct (insert_complaint db u _ tl_id now) as [db'|e] eqn:Hins;
    [|split; [auto | discriminate]].
  split; [discriminate|]. simpl. intros path Hp. split; [congruence|].
  apply complaintSchema_parse_inl in Hparse.
  destruct Hparse as (Ht & Hd & _ & _ & Et & Ed).
  rewrite Et in Htitle. rewrite Ed in Hdescription.
  assert (Hdb := reachable_consistent db Hr).
  destruct (insert_complaint_lockers _ _ _ _ _ _ Hdb Hins) as [Hno El].
  pose proof (insert_complaint_inv _ _ _ _ _ _ Hins)
    as (Hlt & _ & _ & Hnew & _ & _ & Ec & Etl & _).
  exists u. eexists. split; [reflexivity|].
  split; [rewrite Ec; apply in_or_app; right; now left|].
  split.
  { intros Hin. apply complaint_exists_not_in in Hnew. apply Hnew.
    now apply (in_map Complaint.id) in Hin. }
  simpl.
  repeat (split; [first [reflexivity | lia | assumption]|]).
  split; [rewrite Etl; apply in_or_app; right; now left|]. split.
  - unfold locker_exists in *. cbn [Complaint.id Complaint.is_anonymous submitted_row] in Hno, El.
    rewrite El, existsb_app, Hno. simpl.
    destruct (FormData.isAnonymous formData); simpl; [|reflexivity].
    now rewrite N.eqb_refl.
  - simpl in Hlt. exact Hlt.
Qed.

(** Asha's form. *)
Lemma handleSubmit_files_a_well_formed_complaint_witness :
  navigated (handleSubmit utf8_text campus (Some asha) tap_form 100 200 0%Z)
  = Some "/dashboard"
  /\ store (handleSubmit utf8_text campus None tap_form 100 200 0%Z) = campus
  /\ locker_exists (store (handleSubmit utf8_text campus (Some asha) tap_form 100 200 0%Z))
                   100 = true.
Proof.
  split; [vm_compute; reflexivity|]. split.
  - apply (proj1 (handleSubmit_files_a_well_formed_complaint utf8_text campus None tap_form
                    100 200 0%Z (reachable_initial _ campus_initial))).
    reflexivity.
  - destruct (proj2 (handleSubmit_files_a_well_formed_complaint utf8_text campus (Some asha)
                       tap_form 100 200 0%Z (reachable_initial _ campus_initial))
                    "/dashboard") as (_ & u & c & H).
    + vm_compute. reflexivity.
    + destruct H as (_ & _ & _ & _ & _ & _ & _ & _ & _ & _ & _ & _ & _ & _ & _ & Hl & _).
      exact Hl.
Defined.

(** X16.  The checks of [handleSubmit] run in a fixed order, and a form that
    fails one never reaches the store.  Without a signed-in user the toast is
    "Not authenticated"; with one, a title of fewer than 5 UTF-16 code units
    is reported before anything else, then a description of fewer than 20;
    and a valid form whose text the store can hold, of a user with 3 or more
    active complaints in the state the insert runs in, shows the trigger's
    own message, "You cannot have more than 3 active complaints at a time".
    In each case nothing is written and the page stays. *)
Theorem handleSubmit_reports_in_order as_text db u formData id tl_id now :
  handleSubmit as_text db None formData id tl_id now
  = mk_outcome "Error" (text "Not authenticated") true None db
  /\ ((List.length (FormData.title formData) < 5)%nat ->
      handleSubmit as_text db (Some u) formData id tl_id now
      = mk_outcome "Validation Error" (text "Title must be at least 5 characters")
                   true None db)
  /\ ((5 <= List.length (FormData.title formData) <= 100)%nat ->
      (List.length (FormData.description formData) < 20)%nat ->
      handleSubmit as_text db (Some u) formData id tl_id now
      = mk_outcome "Validation Error" (text "Description must be at least 20 characters")
                   true None db)
  /\ (forall v title description,
        complaintSchema_parse formData = inl v ->
        as_text (FormData.title formData) = Some title ->
        as_text (FormData.description formData) = Some description ->
        (3 <= active_count db u)%nat ->
        handleSubmit as_text db (Some u) formData id tl_id now
        = mk_outcome "Error" (text limit_message) true None db).
Proof.
  split; [reflexivity|]. split; [|split].
  - intros Ht. unfold handleSubmit, complaintSchema_parse, string_issues. cbv zeta.
    apply Nat.ltb_lt in Ht. rewrite Ht.
    destruct (parse_category _); [destruct (parse_severity _)|]; reflexivity.
  - intros [Ht1 Ht2] Hd. unfold handleSubmit, complaintSchema_parse, string_issues.
    cbv zeta.
    apply Nat.ltb_ge in Ht1. rewrite Ht1.
    assert (Ht2' : (100 <? List.length (FormData.title formData))%nat = false)
      by (apply Nat.ltb_ge; lia).
    rewrite Ht2'. apply Nat.ltb_lt in Hd. rewrite Hd.
    destruct (parse_category _); [destruct (parse_severity _)|]; reflexivity.
  - intros v title description Hv Htitle Hdescription Hcap. unfold handleSubmit.
    rewrite Hv. apply complaintSchema_parse_inl in Hv.
    destruct Hv as (_ & _ & _ & _ & Et & Ed).
    rewrite Et, Ed, Htitle, Hdescription.
    rewrite insert_over_cap by exact Hcap. reflexivity.
Qed.

(** At the cap Asha sees the trigger's message; with the four-letter title
    of [cafe_form], at the cap or not, she sees the title's. *)
Lemma handleSubmit_reports_in_order_witness :
  toast_description (handleSubmit utf8_text (run campus three_submits) (Some asha) tap_form
                                  103 203 0%Z)
  = text limit_message
  /\ toast_description
       (handleSubmit utf8_text (run campus three_submits) (Some asha) cafe_form 103 203 0%Z)
     = text "Title must be at least 5 characters".
Proof.
  destruct (handleSubmit_reports_in_order utf8_text (run campus three_submits) asha tap_form
              103 203 0%Z) as (_ & _ & _ & Hcap).
  destruct (handleSubmit_reports_in_order utf8_text (run campus three_submits) asha
              cafe_form 103 203 0%Z) as (_ & Htitle & _).
  split.
  - rewrite (Hcap (Validated.mk (FormData.title tap_form) (FormData.description tap_form)
                                hostel low)
                  "Leaking tap" "The tap in block B has been leaking for a week");
      [reflexivity | vm_compute; reflexivity | vm_compute; reflexivity
       | vm_compute; reflexivity |].
    vm_compute. lia.
  - rewrite Htitle; [reflexivity | vm_compute; lia].
Defined.

(** ** The dashboard's sections *)

(** X17.  The dashboard splits the listing into an active and a resolved
    section that never share a row, and a row is in neither exactly when it
    is withdrawn and not resolved: such a complaint counts in "Total
    Submitted" and is shown nowhere. *)
Theorem dashboard_sections_partition complaints :
  List.length complaints
  = Nat.add (Nat.add (List.length (activeComplaints complaints))
                     (List.length (resolvedComplaints complaints)))
            (List.length (unlisted complaints))
  /\ (forall c, In c (activeComplaints complaints) -> ~ In c (resolvedComplaints complaints))
  /\ (forall c, In c complaints ->
        (~ In c (activeComplaints complaints) /\ ~ In c (resolvedComplaints complaints))
        <-> (Complaint.status c <> resolved /\ Complaint.withdrawn_at c <> None)).
Proof.
  split; [|split].
  - unfold activeComplaints, resolvedComplaints, unlisted.
    induction complaints as [|c l IH]; simpl; [reflexivity|].
    destruct (complaint_status_eqb (Complaint.status c) resolved),
      (Complaint.withdrawn_at c); simpl; lia.
  - intros c Ha Hres. unfold activeComplaints, resolvedComplaints in *.
    apply filter_In in Ha, Hres. destruct Ha as [_ Ha], Hres as [_ Hres].
    rewrite Hres in Ha. discriminate.
  - intros c Hc. unfold activeComplaints, resolvedComplaints.
    rewrite !filter_In, negb_involutive.
    destruct (complaint_status_eqb (Complaint.status c) resolved) eqn:Es.
    + apply complaint_status_eqb_eq in Es. split; [|tauto].
      intros [_ H]. exfalso. apply H. auto.
    + assert (Hs : Complaint.status c <> resolved).
      { intros E. apply complaint_status_eqb_eq in E. congruence. }
      destruct (Complaint.withdrawn_at c); simpl.
      * split; [intros _; split; [assumption | discriminate]|].
        intros _. split; intros [_ H]; discriminate.
      * split; [|tauto]. intros [H _]. exfalso. apply H. auto.
Qed.

(** ** The two versions of the limit check *)

(** X18.  Making [check_active_complaint_limit] SECURITY DEFINER changed no
    insert that could succeed: for a caller filing in their own name the first
    migration's version, which counts under the caller's row filter, returns
    what the second's returns.  For a caller naming another submitter the
    first version never raises, the second raises when that submitter is at
    the cap, and the insert is refused either way. *)
Theorem limit_check_versions_agree db uid NEW :
  (uid = Complaint.student_id NEW ->
   check_active_complaint_limit_invoker db uid NEW = check_active_complaint_limit db NEW)
  /\ (uid <> Complaint.student_id NEW ->
      check_active_complaint_limit_invoker db uid NEW = Ok NEW
      /\ forall tl_id now, succeeded (insert_complaint db uid NEW tl_id now) = false).
Proof.
  split.
  - intros ->. unfold check_active_complaint_limit_invoker, check_active_complaint_limit,
      active_count. cbv zeta. rewrite filter_filter_and.
    rewrite (filter_ext _ (fun c => (Complaint.student_id c =? Complaint.student_id NEW)
                                    && is_active c)); [reflexivity|].
    intros c. unfold own_complaint. rewrite (N.eqb_sym (Complaint.student_id NEW)).
    destruct (Complaint.student_id c =? Complaint.student_id NEW); reflexivity.
  - intros Hne. split.
    + unfold check_active_complaint_limit_invoker. cbv zeta. rewrite filter_none;
        [reflexivity|].
      intros c Hc. apply filter_In in Hc. destruct Hc as [_ Hc].
      unfold own_complaint in Hc. apply N.eqb_eq in Hc.
      apply andb_false_iff. left. apply N.eqb_neq. congruence.
    + intros tl_id now. destruct (insert_complaint db uid NEW tl_id now) eqn:H;
        [|reflexivity].
      apply insert_complaint_inv in H. destruct H as (_ & E & _). contradiction.
Qed.

(** Ravi names Asha, who is at the cap, as the submitter. *)
Lemma limit_check_versions_agree_witness :
  check_active_complaint_limit_invoker (run campus three_submits) ravi (tap 103 false)
  = Ok (tap 103 false)
  /\ check_active_complaint_limit (run campus three_submits) (tap 103 false)
     = Error (raise_exception limit_message)
  /\ check_active_complaint_limit_invoker (run campus three_submits) asha (tap 103 false)
     = check_active_complaint_limit (run campus three_submits) (tap 103 false).
Proof.
  destruct (limit_check_versions_agree (run campus three_submits) ravi (tap 103 false))
    as [_ Hother].
  destruct (limit_check_versions_agree (run campus three_submits) asha (tap 103 false))
    as [Hown _].
  split; [apply Hother; discriminate|].
  split; [vm_compute; reflexivity | apply Hown; reflexivity].
Defined.

(** ** After the second migration *)

Lemma step_roles_without_admin db req :
  has_role db (fst req) admin = false -> user_roles (step db req) = user_roles db.
Proof.
  destruct req as [uid s]. simpl. intros Hna. unfold step. simpl.
  destruct (exec db uid s) as [db'|] eqn:H; [|reflexivity].
  destruct s; simpl in H; try (inversion H; subst; reflexivity); try discriminate.
  - apply insert_complaint_inv in H. tauto.
  - apply update_complaint_inv in H. destruct H as [->|(? & _ & _ & _ & _ & _ & _ & ->)];
      reflexivity.
  - apply insert_identity_locker_inv in H. destruct H as (_ & _ & _ & ->). reflexivity.
  - apply update_identity_locker_inv in H.
    destruct H as [->|(? & _ & _ & _ & _ & ->)]; reflexivity.
  - apply insert_user_role_inv in H. destruct H as (Ha & _). congruence.
  - unfold update_user_role, user_roles_manage_policy in H. rewrite Hna in H.
    destruct (find _ _); inversion H; subst; reflexivity.
  - inversion H; subst. simpl. apply filter_all. intros x _.
    unfold user_roles_manage_policy. rewrite Hna. now rewrite andb_false_r.
Qed.

Lemma no_roles_no_authority db u r : user_roles db = [] -> has_role db u r = false.
Proof. intros E. unfold has_role. now rewrite E. Qed.

Lemma run_without_roles db reqs : user_roles db = [] -> user_roles (run db reqs) = [].
Proof.
  revert db. induction reqs as [|req reqs IH]; simpl; intros db E; [assumption|].
  apply IH. rewrite step_roles_without_admin; [assumption|].
  now apply no_roles_no_authority.
Qed.

(** X19.  The second migration carries no authority over: it creates
    [user_roles] empty and drops [profiles.role] without copying it, so right
    after it nobody holds any role, whatever [profiles.role] said, and no
    sequence of client statements changes that.  In every state clients can
    reach from there a complaint is readable and updatable by its submitter
    alone, and nobody reads an identity locker. *)
Theorem migration_carries_no_role_over s reqs :
  user_roles (run (migrate s) reqs) = []
  /\ (forall u r, has_role (run (migrate s) reqs) u r = false)
  /\ (forall uid c,
        complaints_select_policy (run (migrate s) reqs) uid c = true
        \/ complaints_update_using (run (migrate s) reqs) uid c = true ->
        uid = Complaint.student_id c)
  /\ (forall uid, select_identity_lockers (run (migrate s) reqs) uid = []).
Proof.
  assert (E : user_roles (run (migrate s) reqs) = []) by (now apply run_without_roles).
  assert (Hno := fun u r => no_roles_no_authority _ u r E).
  split; [exact E|]. split; [exact Hno|]. split.
  - intros uid c H.
    unfold complaints_select_policy, complaints_update_using, own_complaint,
      staff_assigned_complaint, admin_any_complaint in H.
    rewrite !Hno in H. simpl in H. rewrite !orb_false_r in H.
    destruct H as [H|H]; now apply N.eqb_eq in H.
  - intros uid. apply filter_none. intros l _. apply Hno.
Qed.

(** Rows of the first schema that satisfy its keys and carry the creation
    entry its trigger writes give a consistent database. *)
Lemma run_consistent db reqs : consistent db -> consistent (run db reqs).
Proof.
  revert db. induction reqs as [|req reqs IH]; simpl; intros db H; [assumption|].
  apply IH. now apply consistent_step.
Qed.

Lemma step_keeps_unvaulted db req i :
  consistent db -> user_roles db = [] ->
  In i (map Complaint.id (complaints db)) ->
  locker_exists db i = false ->
  In i (map Complaint.id (complaints (step db req)))
  /\ locker_exists (step db req) i = false.
Proof.
  intros Hdb Hroles Hi Hno. destruct req as [uid s].
  assert (Hna : has_role db uid admin = false) by (now apply no_roles_no_authority).
  split.
  - unfold step. simpl. destruct (exec db uid s) as [db'|] eqn:H; [|assumption].
    eapply complaint_id_survives_exec; eauto.
  - destruct (writes_lockers db uid s) eqn:Hw.
    + destruct s; simpl in Hw; try discriminate; try congruence.
      unfold step. simpl. destruct (insert_complaint db uid NEW tl_id now) as [db'|] eqn:H;
        [|assumption].
      destruct (insert_complaint_lockers _ _ _ _ _ _ Hdb H) as [_ El].
      apply insert_complaint_inv in H. destruct H as (_ & _ & _ & Hnew & _).
      apply complaint_exists_not_in in Hnew.
      unfold locker_exists in *. rewrite El, existsb_app, Hno, Hw. simpl.
      rewrite orb_false_r. apply N.eqb_neq. intros E. apply Hnew. now rewrite E.
    + unfold locker_exists in *. now rewrite (step_lockers_frame db uid s Hw).
Qed.

(** X20.  The second migration vaults nothing that is already on file: a
    complaint filed under the first schema, anonymous or not, has no identity
    locker after the migration, and no sequence of client statements ever
    gives it one (the trigger fires on INSERT only and nobody holds the admin
    role). *)
Theorem migration_vaults_no_existing_complaint s reqs c :
  consistent (migrate s) ->
  In c (V1.complaints s) ->
  complaint_exists (run (migrate s) reqs) (Complaint.id c) = true
  /\ locker_exists (run (migrate s) reqs) (Complaint.id c) = false.
Proof.
  intros Hdb Hc.
  assert (Hgen : forall db,
    consistent db -> user_roles db = [] ->
    In (Complaint.id c) (map Complaint.id (complaints db)) ->
    locker_exists db (Complaint.id c) = false ->
    In (Complaint.id c) (map Complaint.id (complaints (run db reqs)))
    /\ locker_exists (run db reqs) (Complaint.id c) = false).
  { induction reqs as [|req reqs IH]; simpl; intros db H1 H2 H3 H4; [auto|].
    destruct (step_keeps_unvaulted db req _ H1 H2 H3 H4) as [H3' H4'].
    apply IH; auto.
    - now apply consistent_step.
    - rewrite step_roles_without_admin; [assumption|].
      now apply no_roles_no_authority. }
  destruct (Hgen (migrate s) Hdb eq_refl) as [H1 H2].
  - simpl. now apply in_map.
  - reflexivity.
  - split; [now apply complaint_exists_in | exact H2].
Qed.

Lemma old_campus_consistent : consistent (migrate old_campus).
Proof.
  constructor; simpl.
  - constructor; [intros [] | constructor].
  - constructor.
  - intros l [].
  - intros x [<-|[]]. exists (creation_entry (tap 100 true) 200 0%Z).
    split; [now left | split; reflexivity].
  - constructor.
  - intros x [<-|[]]. reflexivity.
Qed.

(** Asha's anonymous complaint of the old schema stays without a locker
    through the migration and a further filing, which gets one. *)
Lemma migration_vaults_no_existing_complaint_witness :
  Complaint.is_anonymous (tap 100 true) = true
  /\ complaint_exists
       (run (migrate old_campus) [(asha, InsertComplaint (tap 101 true) 201 9%Z)]) 100
     = true
  /\ locker_exists
       (run (migrate old_campus) [(asha, InsertComplaint (tap 101 true) 201 9%Z)]) 100
     = false
  /\ locker_exists
       (run (migrate old_campus) [(asha, InsertComplaint (tap 101 true) 201 9%Z)]) 101
     = true.
Proof.
  split; [reflexivity|].
  destruct (migration_vaults_no_existing_complaint old_campus
              [(asha, InsertComplaint (tap 101 true) 201 9%Z)] (tap 100 true)
              old_campus_consistent (or_introl eq_refl))
    as [H1 H2].
  split; [exact H1|]. split; [exact H2 | vm_compute; reflexivity].
Defined.
